(** * The Mezmo log exporter: normalisation, batch assembly, transport

    A shallow embedding of [exporter/mezmoexporter/exporter.go].  Go strings
    and byte buffers are Rocq strings (sequences of 8-bit characters), Go
    [int]/[int64] values are integers, the [map[string]string] of a line is a
    finite map, and the effects of a push (wall-clock reads, pooled buffers,
    HTTP exchanges, diagnostics) are threaded through a small state and
    error monad whose trace records what the exporter did, in order. *)

From Stdlib Require Import ZArith Lia DecimalString Ascii.
From stdpp Require Import base gmap strings list sorting.

Local Open Scope Z_scope.

(** ** Strings as byte sequences *)

(** Go's [len] on a string or a byte slice. *)
Definition len (s : string) : Z := Z.of_nat (String.length s).

(** The double quote character, and a string made of it. *)
Definition dquote : ascii := ascii_of_nat 34.
Definition dq : string := String dquote "".

(** Go's [strings.Repeat] on a one-character string. *)
Fixpoint repeat_char (c : ascii) (n : nat) : string :=
  match n with
  | O => ""
  | S n' => String c (repeat_char c n')
  end.

(** [strings.Join]. *)
Fixpoint Join (elems : list string) (sep : string) : string :=
  match elems with
  | [] => ""
  | [e] => e
  | e :: rest => e +:+ sep +:+ Join rest sep
  end.

(** ** Results and errors *)

(** A Go [error] value is represented by its message. *)
Definition error := string.

Inductive result (A : Type) : Type :=
| Ok (a : A)
| Fail (e : error).
Arguments Ok {A} a.
Arguments Fail {A} e.

(** [fmt.Errorf("<msg>: %w", e)]. *)
Definition Errorf_wrap (msg : string) (e : error) : error := msg +:+ ": " +:+ e.

(** ** encoding/hex *)
Module hex.

Definition hextable : string := "0123456789abcdef".

Definition digit (n : N) : ascii :=
  default "0"%char (String.get (N.to_nat n) hextable).

(** [hex.EncodeToString]: two characters per byte, high nibble first. *)
Fixpoint EncodeToString (src : list Byte.byte) : string :=
  match src with
  | [] => ""
  | v :: rest =>
      String (digit (N.shiftr (Byte.to_N v) 4))
        (String (digit (N.land (Byte.to_N v) 15)) (EncodeToString rest))
  end.

End hex.

(** ** The exporter's data *)

Record mezmoLogLine := {
  Timestamp : Z;
  Line : string;
  App : string;
  Level : string;
  Meta : gmap string string
}.

Record Config := {
  IngestURL : string;
  IngestKey : string;
  Compression : bool
}.

Record mezmoExporter := {
  config : Config;
  userAgentString : string
}.

(** [newLogsExporter]: the user agent names the exporter and its build. *)
Definition newLogsExporter (cfg : Config) (version : string) : mezmoExporter :=
  {| config := cfg; userAgentString := "mezmo-otel-exporter/" +:+ version |}.

(** ** encoding/json, as far as a line needs it *)
Module json.

(** [htmlSafeSet]: the ASCII characters written as they are. *)
Definition htmlSafe (b : N) : bool :=
  ((32 <=? b) && (b <? 128) && negb (b =? 34) && negb (b =? 38)
   && negb (b =? 60) && negb (b =? 62) && negb (b =? 92))%N.

(** The escape written for an ASCII character outside [htmlSafeSet] (the
    short forms for backspace and form feed are those of Go 1.22 and later;
    earlier versions write them with [\u00]). *)
Definition escapeByte (c : ascii) : string :=
  let b := N_of_ascii c in
  if ((b =? 92) || (b =? 34))%N then String "\" (String c "")
  else if (b =? 8)%N then "\b"
  else if (b =? 12)%N then "\f"
  else if (b =? 10)%N then "\n"
  else if (b =? 13)%N then "\r"
  else if (b =? 9)%N then "\t"
  else "\u00" +:+ String (hex.digit (N.shiftr b 4)) (String (hex.digit (N.land b 15)) "").

Definition inRange (lo hi : N) (c : ascii) : bool :=
  ((lo <=? N_of_ascii c) && (N_of_ascii c <=? hi))%N.

(** [utf8.DecodeRuneInString] on the string [String c0 rest]: the size of the
    well-formed rune at its front, and [None] for [RuneError] of size 1. *)
Definition decodeRuneSize (c0 : ascii) (rest : string) : option nat :=
  let b0 := N_of_ascii c0 in
  if (b0 <? 194)%N then None
  else if (b0 <=? 223)%N then
    match rest with
    | String c1 _ => if inRange 128 191 c1 then Some 2%nat else None
    | _ => None
    end
  else if (b0 <=? 239)%N then
    let lo := if (b0 =? 224)%N then 160%N else 128%N in
    let hi := if (b0 =? 237)%N then 159%N else 191%N in
    match rest with
    | String c1 (String c2 _) =>
        if inRange lo hi c1 && inRange 128 191 c2 then Some 3%nat else None
    | _ => None
    end
  else if (b0 <=? 244)%N then
    let lo := if (b0 =? 240)%N then 144%N else 128%N in
    let hi := if (b0 =? 244)%N then 143%N else 191%N in
    match rest with
    | String c1 (String c2 (String c3 _)) =>
        if inRange lo hi c1 && inRange 128 191 c2 && inRange 128 191 c3
        then Some 4%nat else None
    | _ => None
    end
  else None.

(** The rune at the front is U+2028 or U+2029 (E2 80 A8, E2 80 A9); the
    result is its last hexadecimal digit. *)
Definition lineSeparator (c0 : ascii) (rest : string) : option N :=
  match rest with
  | String c1 (String c2 _) =>
      if ((N_of_ascii c0 =? 226) && (N_of_ascii c1 =? 128)
          && ((N_of_ascii c2 =? 168) || (N_of_ascii c2 =? 169)))%N
      then Some (N.land (N_of_ascii c2) 15)
      else None
  | _ => None
  end.

(** The loop of [appendString] with HTML escaping: [keep] bytes of a rune
    being copied and [drop] bytes of a rune already written as an escape are
    passed over without being examined. *)
Fixpoint escape (keep drop : nat) (src : string) : string :=
  match src with
  | "" => ""
  | String c rest =>
      match drop, keep with
      | S d, _ => escape keep d rest
      | O, S k => String c (escape k 0 rest)
      | O, O =>
          let b := N_of_ascii c in
          if (b <? 128)%N then
            if htmlSafe b then String c (escape 0 0 rest)
            else escapeByte c +:+ escape 0 0 rest
          else
            match decodeRuneSize c rest with
            | None => "\ufffd" +:+ escape 0 0 rest
            | Some size =>
                match lineSeparator c rest with
                | Some d => "\u202" +:+ String (hex.digit d) (escape 0 2 rest)
                | None => String c (escape (size - 1) 0 rest)
                end
            end
      end
  end.

Definition appendString (src : string) : string := dq +:+ escape 0 0 src +:+ dq.

(** [strconv.AppendInt(dst, i, 10)]. *)
Definition appendInt (i : Z) : string := NilZero.string_of_int (Z.to_int i).

(** Map entries are written in the order of their keys. *)
Definition key_le (x y : string * string) : Prop := String.le x.1 y.1.

#[export] Instance key_le_dec (x y : string * string) : Decision (key_le x y) :=
  decide (String.le x.1 y.1).

Definition member (kv : string * string) : string :=
  appendString kv.1 +:+ ":" +:+ appendString kv.2.

Definition appendMap (m : gmap string string) : string :=
  "{" +:+ Join (map member (merge_sort key_le (map_to_list m))) "," +:+ "}".

Definition field (name value : string) : string := dq +:+ name +:+ dq +:+ ":" +:+ value.

(** [json.Marshal] on a [mezmoLogLine]: the fields in declaration order under
    their tags.  None of the field types can fail to encode. *)
Definition Marshal (l : mezmoLogLine) : result string :=
  Ok ("{" +:+ field "timestamp" (appendInt (Timestamp l))
      +:+ "," +:+ field "line" (appendString (Line l))
      +:+ "," +:+ field "app" (appendString (App l))
      +:+ "," +:+ field "level" (appendString (Level l))
      +:+ "," +:+ field "meta" (appendMap (Meta l)) +:+ "}").

End json.

(** ** pdata: attribute values and maps *)
Module pcommon.

(** A [pcommon.Value].  The exporter observes a value only through [Str] and
    [AsString]; doubles, maps, slices and byte slices carry the text that the
    library renders for them. *)
Inductive Value : Type :=
| ValueEmpty
| ValueStr (s : string)
| ValueInt (i : Z)
| ValueBool (b : bool)
| ValueDouble (formatted : string)
| ValueMap (json : string)
| ValueSlice (json : string)
| ValueBytes (base64 : string).

(** [Value.Str]: the string held by a string value, and the empty string for
    a value of any other type. *)
Definition Str (v : Value) : string :=
  match v with
  | ValueStr s => s
  | _ => ""
  end.

(** [Value.AsString]: the string representation of a value of any type. *)
Definition AsString (v : Value) : string :=
  match v with
  | ValueEmpty => ""
  | ValueStr s => s
  | ValueInt i => NilZero.string_of_int (Z.to_int i)
  | ValueBool b => if b then "true" else "false"
  | ValueDouble formatted => formatted
  | ValueMap json => json
  | ValueSlice json => json
  | ValueBytes base64 => base64
  end.

Definition is_string (v : Value) : bool :=
  match v with
  | ValueStr _ => true
  | _ => false
  end.

(** A [pcommon.Map] is a slice of key/value pairs in insertion order. *)
Definition Map : Type := list (string * Value).

(** [Map.Get]: the first entry with the key; the zero value and [false] when
    there is none. *)
Fixpoint Get (m : Map) (key : string) : Value * bool :=
  match m with
  | [] => (ValueEmpty, false)
  | (k, v) :: rest => if String.eqb k key then (v, true) else Get rest key
  end.

(** [Map.Range]: calls [f] on the entries in order until it returns [false];
    [f] acts on the state [S] it closes over. *)
Fixpoint Range {S : Type} (m : Map) (f : string → Value → S → S * bool) (s : S) : S :=
  match m with
  | [] => s
  | (k, v) :: rest =>
      let '(s', continue) := f k v s in
      if continue then Range rest f s' else s'
  end.

(** [TraceID.IsEmpty] and [SpanID.IsEmpty]: the identifier is all zero. *)
Definition IsEmpty (id : list Byte.byte) : bool := forallb (Byte.eqb Byte.x00) id.

(** [pcommon.Timestamp] is a [uint64] count of nanoseconds. *)
Definition Timestamp := Z.

End pcommon.

(** ** Package time, as far as the exporter uses it *)
Module time.

(** A [time.Time] as seconds and nanoseconds since the Unix epoch. *)
Record Time := { sec : Z; nsec : Z }.

(** [time.Unix(sec, nsec)]: [nsec] outside [0, 1e9) is carried into [sec];
    Go's [/] truncates towards zero. *)
Definition Unix (sec nsec : Z) : Time :=
  if (nsec <? 0) || (1000000000 <=? nsec) then
    let n := Z.quot nsec 1000000000 in
    let sec := sec + n in
    let nsec := nsec - n * 1000000000 in
    if nsec <? 0 then {| sec := sec - 1; nsec := nsec + 1000000000 |}
    else {| sec := sec; nsec := nsec |}
  else {| sec := sec; nsec := nsec |}.

(** [Time.UnixMilli]. *)
Definition UnixMilli (t : Time) : Z := sec t * 1000 + Z.quot (nsec t) 1000000.

(** The conversion [int64(ts)] of a [uint64]. *)
Definition int64_of_uint64 (ts : Z) : Z :=
  if ts <? 2 ^ 63 then ts else ts - 2 ^ 64.

(** [Timestamp.AsTime] (the [UTC] call on the result changes the location,
    not the instant). *)
Definition AsTime (ts : pcommon.Timestamp) : Time := Unix 0 (int64_of_uint64 ts).

End time.

(** ** pdata: log records *)
Module plog.

Record LogRecord := {
  Timestamp : pcommon.Timestamp;
  SeverityText : string;
  Body : pcommon.Value;
  TraceID : list Byte.byte;
  SpanID : list Byte.byte;
  Attributes : pcommon.Map
}.

Record ScopeLogs := { LogRecords : list LogRecord }.

Record ResourceLogs := {
  Resource : pcommon.Map;
  ScopeLogsSlice : list ScopeLogs
}.

(** [plog.Logs]: the resource groups of a batch. *)
Definition Logs : Type := list ResourceLogs.

End plog.

(** ** net/http, zap and the effects of a push *)

(** A request as [sendLinesToMezmo] builds it.  [Header] lists the calls of
    [req.Header.Add], in program order and with the keys as the source
    writes them; [http.headerOf] below gives the header map they build. *)
Record Request := {
  Method : string;
  URL : string;
  Header : list (string * string);
  ReqBody : string
}.

Record Response := {
  StatusCode : Z;
  Status : string;
  RespBody : string;
  CloseResult : option error
}.

(** What the exporter does to the outside world, in order. *)
Inductive Event : Type :=
| EvDo (req : Request)
| EvLogError (msg : string)
| EvReadAll (body : string)
| EvLogDebug (msg : string) (response : string)
| EvClose (res : Response).

(** The surroundings of one push: the wall clock's successive readings (in
    milliseconds), the stale contents of the buffers the pool hands out, the
    outcome of the successive HTTP exchanges, and whether the logger is
    enabled at debug level. *)
Record Env := {
  clock : nat → Z;
  pooled : nat → string;
  client_Do : nat → Request → result Response;
  debugEnabled : bool
}.

Record State := {
  clockReads : nat;
  poolGets : nat;
  exchanges : nat;
  trace : list Event
}.

Definition initial : State :=
  {| clockReads := 0; poolGets := 0; exchanges := 0; trace := [] |}.

(** Computations that read the surroundings, update the state and may stop
    with an error (a Go [return err]). *)
Definition M (A : Type) : Type := Env → State → result A * State.

#[export] Instance M_ret : MRet M := λ A (a : A) _ s, (Ok a, s).

#[export] Instance M_bind : MBind M := λ A B (k : A → M B) (m : M A) env s,
  match m env s with
  | (Ok a, s') => k a env s'
  | (Fail e, s') => (Fail e, s')
  end.

Definition throw {A} (e : error) : M A := λ _ s, (Fail e, s).

(** Replaces the error of a failed computation, as in
    [if x, err = f(); err != nil { return fmt.Errorf(..., err) }]. *)
Definition mapError {A} (f : error → error) (m : M A) : M A :=
  λ env s,
    match m env s with
    | (Fail e, s') => (Fail (f e), s')
    | ok => ok
    end.

Definition emit (ev : Event) : M unit :=
  λ _ s, (Ok tt, {| clockReads := clockReads s; poolGets := poolGets s;
                    exchanges := exchanges s; trace := trace s ++ [ev] |}).

(** [time.Now().UTC().UnixMilli()]. *)
Definition time_Now_UnixMilli : M Z :=
  λ env s, (Ok (clock env (clockReads s)),
            {| clockReads := S (clockReads s); poolGets := poolGets s;
               exchanges := exchanges s; trace := trace s |}).

(** [m.bytesPool.Get()]: some buffer, with whatever it held before. *)
Definition bytesPool_Get : M string :=
  λ env s, (Ok (pooled env (poolGets s)),
            {| clockReads := clockReads s; poolGets := S (poolGets s);
               exchanges := exchanges s; trace := trace s |}).

(** [m.client.Do(req)]. *)
Definition client_Do_req (req : Request) : M Response :=
  λ env s,
    let s' := {| clockReads := clockReads s; poolGets := poolGets s;
                 exchanges := S (exchanges s); trace := trace s ++ [EvDo req] |} in
    match client_Do env (exchanges s) req with
    | Ok res => (Ok res, s')
    | Fail e => (Fail e, s')
    end.

(** [m.log.Check(zap.DebugLevel, ...) != nil]. *)
Definition log_Check_Debug : M bool := λ env s, (Ok (debugEnabled env), s).

(** The state once one more buffer has been taken from the pool. *)
Definition afterGet (s : State) : State :=
  {| clockReads := clockReads s; poolGets := S (poolGets s);
     exchanges := exchanges s; trace := trace s |}.

(** ** bytes.Buffer *)
Module Buffer.

Definition Reset (b : string) : string := "".
Definition WriteString (b s : string) : string := b +:+ s.
Definition WriteRune (b : string) (r : ascii) : string := b +:+ String r "".
Definition Write (b p : string) : string := b +:+ p.
Definition Len (b : string) : Z := len b.

End Buffer.

(** The two literals that open and close a document. *)
Definition header : string := "{" +:+ dq +:+ "lines" +:+ dq +:+ ": [".
Definition footer : string := "]}".

(** ** The rest of the package *)
Module utils.

(** Modelled from the spec: [truncateString] is declared in another file of
    the package.  The spec has every string field length-truncated to a
    fixed maximum, the truncation being a projection: a string within the
    bound is kept, a longer one is cut to its first [maxLen] bytes. *)
Definition truncateString (s : string) (maxLen : Z) : string :=
  if len s <=? maxLen then s else String.substring 0 (Z.to_nat maxLen) s.

End utils.

(** ** Vocabulary of the statements *)

(** The requests issued, in order. *)
Fixpoint requests (t : list Event) : list Request :=
  match t with
  | [] => []
  | EvDo req :: rest => req :: requests rest
  | _ :: rest => requests rest
  end.

(** A document listing the given encoded lines, with or without a comma
    after the last of them. *)
Definition document (encs : list string) (trailing : bool) : string :=
  header +:+ Join encs "," +:+ (if trailing then "," else "") +:+ footer.

(** A document as flushed by the loop: the comma that precedes the line that
    did not fit is already in the buffer, except in front of the very first
    line. *)
Definition flushed (encs : list string) : string :=
  document encs (if encs is [] then false else true).

(** The records of a batch with the host name of their resource, in the
    order resources, scopes, records. *)
Definition recordsOf (ld : plog.Logs) : list (pcommon.Value * bool * plog.LogRecord) :=
  rl ← ld;
  sl ← plog.ScopeLogsSlice rl;
  log ← plog.LogRecords sl;
  [(pcommon.Get (plog.Resource rl) "host.name", log)].

(** The value of the last entry with the key, which is the one a [Range]
    that stores every entry under its key leaves behind. *)
Fixpoint lastValue (m : pcommon.Map) (key : string) : option pcommon.Value :=
  match m with
  | [] => None
  | (k, v) :: rest =>
      match lastValue rest key with
      | Some v' => Some v'
      | None => if String.eqb k key then Some v else None
      end
  end.

(** What the resource and the identifiers of a record contribute to the
    meta mapping under a key: the host name of the resource, when it has one,
    and the trace and span identifiers in hexadecimal, when they are not
    empty. *)
Definition resourceDerived (hasResourceHostName : bool) (resourceHostName : pcommon.Value)
    (log : plog.LogRecord) (key : string) : option string :=
  if String.eqb key "hostname" then
    if hasResourceHostName then Some (pcommon.AsString resourceHostName) else None
  else if String.eqb key "trace.id" then
    if pcommon.IsEmpty (plog.TraceID log) then None
    else Some (hex.EncodeToString (plog.TraceID log))
  else if String.eqb key "span.id" then
    if pcommon.IsEmpty (plog.SpanID log) then None
    else Some (hex.EncodeToString (plog.SpanID log))
  else None.

(** Running a computation on each element of a list, in order. *)
Fixpoint forEach {A B} (f : A → M B) (l : list A) : M (list B) :=
  match l with
  | [] => mret []
  | x :: rest => y ← f x; ys ← forEach f rest; mret (y :: ys)
  end.

(** No exchange completes. *)
Definition unreachable (env : Env) : Prop :=
  ∀ n req, ∃ errs, client_Do env n req = Fail errs.

(** Every exchange completes and every response body closes cleanly,
    whatever the status. *)
Definition completes (env : Env) : Prop :=
  ∀ n req, ∃ res, client_Do env n req = Ok res ∧ CloseResult res = None.

(** The characters of lowercase hexadecimal. *)
Definition lowerHex (c : ascii) : bool :=
  let b := N_of_ascii c in ((48 <=? b) && (b <=? 57) || (97 <=? b) && (b <=? 102))%N.

Fixpoint allChars (p : ascii → bool) (s : string) : bool :=
  match s with
  | "" => true
  | String c rest => p c && allChars p rest
  end.

(** ** A test double for the ingestion endpoint *)

(** An endpoint that answers every request with the given status; the clock
    advances by one millisecond per reading. *)
Definition mockEndpoint (status : Z) (statusText : string) (debug : bool) : Env :=
  {| clock := λ n, 1700000000000 + Z.of_nat n;
     pooled := λ _, "stale bytes of an earlier document";
     client_Do := λ _ _, Ok {| StatusCode := status; Status := statusText;
                               RespBody := "{}"; CloseResult := None |};
     debugEnabled := debug |}.

(** An endpoint that refuses every connection. *)
Definition deadEndpoint : Env :=
  {| clock := λ n, 1700000000000 + Z.of_nat n;
     pooled := λ _, "";
     client_Do := λ _ _, Fail "dial tcp: connection refused";
     debugEnabled := false |}.

(** A record with a trace identifier. *)
Definition tracedRecord : plog.LogRecord :=
  {| plog.Timestamp := 1700000000123456789; plog.SeverityText := "warn";
     plog.Body := pcommon.ValueStr "disk almost full";
     plog.TraceID := replicate 15 Byte.x00 ++ [Byte.xab];
     plog.SpanID := replicate 8 Byte.x00;
     plog.Attributes := [("appname", pcommon.ValueStr "storage")] |}.

(** A stand-in for the gzip codec: the stream is the data behind a two-byte
    magic number. *)
Definition stored_stream (data : string) : string := "GZ" +:+ data.
Definition stored_gunzip (stream : string) : option string :=
  match stream with
  | String "G" (String "Z" data) => Some data
  | _ => None
  end.

(** [URL.Path] of an absolute URL without escapes: what follows the host, up
    to the query or the fragment. *)
Fixpoint afterScheme (url : string) : string :=
  match url with
  | String ":" (String "/" (String "/" rest)) => rest
  | String _ rest => afterScheme rest
  | "" => ""
  end.
Fixpoint afterHost (s : string) : string :=
  match s with
  | "" => ""
  | String c rest =>
      if (Ascii.eqb c "/" || Ascii.eqb c "?" || Ascii.eqb c "#")%bool then s
      else afterHost rest
  end.
Fixpoint beforeQuery (s : string) : string :=
  match s with
  | "" => ""
  | String c rest =>
      if (Ascii.eqb c "?" || Ascii.eqb c "#")%bool then "" else String c (beforeQuery rest)
  end.
Definition path_of (url : string) : string := beforeQuery (afterHost (afterScheme url)).

Definition testConfig (compress : bool) : Config :=
  {| IngestURL := "https://logs.mezmo.com/otel/ingest/rest";
     IngestKey := "00000000000000000000000000000000";
     Compression := compress |}.

Definition testExporter (compress : bool) : mezmoExporter :=
  newLogsExporter (testConfig compress) "latest".

Definition emptyRecord : plog.LogRecord :=
  {| plog.Timestamp := 0; plog.SeverityText := ""; plog.Body := pcommon.ValueEmpty;
     plog.TraceID := replicate 16 Byte.x00; plog.SpanID := replicate 8 Byte.x00;
     plog.Attributes := [] |}.

(** A record with nothing but one attribute, whose key is [n] times the
    letter k and whose value is the empty string. *)
Definition keyedRecord (n : nat) : plog.LogRecord :=
  {| plog.Timestamp := 0; plog.SeverityText := ""; plog.Body := pcommon.ValueEmpty;
     plog.TraceID := replicate 16 Byte.x00; plog.SpanID := replicate 8 Byte.x00;
     plog.Attributes := [(repeat_char "k" n, pcommon.ValueStr "")] |}.

(** A record that brings its own "hostname" attribute. *)
Definition namedRecord : plog.LogRecord :=
  {| plog.Timestamp := 0; plog.SeverityText := ""; plog.Body := pcommon.ValueEmpty;
     plog.TraceID := replicate 16 Byte.x00; plog.SpanID := replicate 8 Byte.x00;
     plog.Attributes := [("hostname", pcommon.ValueStr "db-7")] |}.

(** A record whose attribute and body are numbers. *)
Definition numericRecord : plog.LogRecord :=
  {| plog.Timestamp := 0; plog.SeverityText := ""; plog.Body := pcommon.ValueInt 7;
     plog.TraceID := replicate 16 Byte.x00; plog.SpanID := replicate 8 Byte.x00;
     plog.Attributes := [("retries", pcommon.ValueInt 3)] |}.

(** A batch of one resource without attributes and one scope. *)
Definition oneResource (logs : list plog.LogRecord) : plog.Logs :=
  [ {| plog.Resource := []; plog.ScopeLogsSlice := [ {| plog.LogRecords := logs |} ] |} ].

(** The lines of [emptyRecord] and [keyedRecord] read at clock time [t]. *)
Definition emptyLine (t : Z) : mezmoLogLine :=
  {| Timestamp := t; Line := ""; App := ""; Level := "info"; Meta := ∅ |}.
Definition keyedLine (t : Z) (n : nat) : mezmoLogLine :=
  {| Timestamp := t; Line := ""; App := ""; Level := "info";
     Meta := {[ repeat_char "k" n := "" ]} |}.

(** The encoding of [emptyLine 1700000000000]. *)
Definition emptyLineBytes : string :=
  "{" +:+ dq +:+ "timestamp" +:+ dq +:+ ":1700000000000,"
  +:+ dq +:+ "line" +:+ dq +:+ ":" +:+ dq +:+ dq +:+ ","
  +:+ dq +:+ "app" +:+ dq +:+ ":" +:+ dq +:+ dq +:+ ","
  +:+ dq +:+ "level" +:+ dq +:+ ":" +:+ dq +:+ "info" +:+ dq +:+ ","
  +:+ dq +:+ "meta" +:+ dq +:+ ":{}}".

(** The state once the clock has been read once more. *)
Definition afterNow (s : State) : State :=
  {| clockReads := S (clockReads s); poolGets := poolGets s;
     exchanges := exchanges s; trace := trace s |}.

(** The last character of a string. *)
Fixpoint lastChar (s : string) : option ascii :=
  match s with
  | "" => None
  | String c "" => Some c
  | String _ rest => lastChar rest
  end.

(** Three records in two resource groups, the first group with a host name,
    the second with a traced record. *)
Definition scenario : plog.Logs :=
  [ {| plog.Resource := [("host.name", pcommon.ValueStr "web-1")];
       plog.ScopeLogsSlice := [ {| plog.LogRecords := [emptyRecord; numericRecord] |} ] |};
    {| plog.Resource := [];
       plog.ScopeLogsSlice := [ {| plog.LogRecords := [tracedRecord] |} ] |} ].

(** A record the encoder below refuses, and its line when the clock is read
    for the second time. *)
Definition refusedRecord : plog.LogRecord :=
  {| plog.Timestamp := 0; plog.SeverityText := "";
     plog.Body := pcommon.ValueStr "not encodable";
     plog.TraceID := replicate 16 Byte.x00; plog.SpanID := replicate 8 Byte.x00;
     plog.Attributes := [] |}.
Definition refusedLine : mezmoLogLine :=
  {| Timestamp := 1700000000001; Line := "not encodable"; App := ""; Level := "info";
     Meta := ∅ |}.

(** An encoder that fails on the lines with the given message. *)
Definition refusingMarshal (message : string) (l : mezmoLogLine) : result string :=
  if String.eqb (Line l) message then Fail "json: unsupported value"
  else json.Marshal l.

(** ** Further vocabulary: responses, the pool, the life cycle *)

(** The responses whose bodies were closed, in order. *)
Fixpoint closed (t : list Event) : list Response :=
  match t with
  | [] => []
  | EvClose res :: rest => res :: closed rest
  | _ :: rest => closed rest
  end.

(** The responses the client returned for the requests, issued as the
    exchanges [n], [n + 1], ... *)
Fixpoint received (env : Env) (n : nat) (reqs : list Request) : list Response :=
  match reqs with
  | [] => []
  | req :: rest =>
      match client_Do env n req with
      | Ok res => res :: received env (S n) rest
      | Fail _ => received env (S n) rest
      end
  end.

(** The messages logged at error level, the response bodies read, and the
    responses that count as rejections. *)
Fixpoint logged (t : list Event) : list string :=
  match t with
  | [] => []
  | EvLogError msg :: rest => msg :: logged rest
  | _ :: rest => logged rest
  end.

Fixpoint bodiesRead (t : list Event) : list string :=
  match t with
  | [] => []
  | EvReadAll body :: rest => body :: bodiesRead rest
  | _ :: rest => bodiesRead rest
  end.

Definition rejected (res : Response) : bool := 400 <=? StatusCode res.

(** The same surroundings with other buffers in the pool. *)
Definition withPool (env : Env) (buffers : nat → string) : Env :=
  {| clock := clock env; pooled := buffers;
     client_Do := client_Do env; debugEnabled := debugEnabled env |}.


(** The keys of a [pcommon.Map], in order. *)
Definition keysOf (m : pcommon.Map) : list string := m.*1.

(** [net/textproto]: the canonical form of a header key. *)
Module textproto.

Definition isLower (c : ascii) : bool :=
  ((97 <=? nat_of_ascii c) && (nat_of_ascii c <=? 122))%nat.
Definition isUpper (c : ascii) : bool :=
  ((65 <=? nat_of_ascii c) && (nat_of_ascii c <=? 90))%nat.
Definition isDigit (c : ascii) : bool :=
  ((48 <=? nat_of_ascii c) && (nat_of_ascii c <=? 57))%nat.

(** The bytes of a token of RFC 7230. *)
Definition validHeaderFieldByte (c : ascii) : bool :=
  isLower c || isUpper c || isDigit c
  || existsb (Ascii.eqb c) (String.list_ascii_of_string "!#$%&'*+-.^_`|~").

Definition toLower : nat := 32.

(** The first loop of [canonicalMIMEHeaderKey]: [None] at a byte that is
    neither valid nor a space, otherwise whether a space was seen. *)
Fixpoint looksLikeKey (a : string) (noCanon : bool) : option bool :=
  match a with
  | "" => Some noCanon
  | String c rest =>
      if validHeaderFieldByte c then looksLikeKey rest noCanon
      else if Ascii.eqb c " " then looksLikeKey rest true
      else None
  end.

(** Its second loop: upper case for the first letter and after each dash,
    lower case elsewhere. *)
Fixpoint canonicalize (a : string) (upper : bool) : string :=
  match a with
  | "" => ""
  | String c rest =>
      let c :=
        if upper && isLower c then ascii_of_nat (nat_of_ascii c - toLower)
        else if negb upper && isUpper c then ascii_of_nat (nat_of_ascii c + toLower)
        else c in
      String c (canonicalize rest (Ascii.eqb c "-"))
  end.

Definition canonicalMIMEHeaderKey (a : string) : string * bool :=
  match looksLikeKey a false with
  | None => (a, false)
  | Some true => (a, true)
  | Some false => (canonicalize a true, true)
  end.

(** The quick check of [CanonicalMIMEHeaderKey]: [false] when it meets a
    letter of the wrong case and hands over to [canonicalMIMEHeaderKey],
    [true] when it returns the key as it is. *)
Fixpoint quickCheck (s : string) (upper : bool) : bool :=
  match s with
  | "" => true
  | String c rest =>
      if negb (validHeaderFieldByte c) then true
      else if upper && isLower c then false
      else if negb upper && isUpper c then false
      else quickCheck rest (Ascii.eqb c "-")
  end.

Definition CanonicalMIMEHeaderKey (s : string) : string :=
  if quickCheck s true then s else (canonicalMIMEHeaderKey s).1.

End textproto.

(** [net/http]: a header is a map from canonical keys to the values added
    under them; it has no order of keys. *)
Module http.

Definition Header : Type := gmap string (list string).

(** [Header.Add]. *)
Definition Add (h : Header) (key value : string) : Header :=
  let key := textproto.CanonicalMIMEHeaderKey key in
  <[key := default [] (h !! key) ++ [value]]> h.

(** The header of a new request after the given calls of [Add]. *)
Definition headerOf (adds : list (string * string)) : Header :=
  foldl (λ h kv, Add h kv.1 kv.2) ∅ adds.

End http.

(** [start] and [stop]: the part of the exporter that changes over its life
    is the HTTP client it holds, [None] for Go's [nil].  The wait group is
    not represented: with no push in flight [wg.Wait] returns at once. *)
Module lifecycle.

(** An [*http.Client], by its identity. *)
Definition Client : Type := nat.

Inductive Event : Type :=
| Wait
| CloseIdleConnections (c : Client).

Record exporter := {
  client : option Client;
  effects : list Event
}.

(** [newLogsExporter] leaves the client unset. *)
Definition fresh : exporter := {| client := None; effects := [] |}.

(** [start]: [c] and [err] are the two results of [ToClientContext]; the
    first is stored and the second returned, whatever they are. *)
Definition start (c : option Client) (err : option error) (m : exporter)
    : option error * exporter :=
  (err, {| client := c; effects := effects m |}).

(** [stop]. *)
Definition stop (m : exporter) : option error * exporter :=
  match client m with
  | None => (None, m)
  | Some c =>
      (None, {| client := None; effects := effects m ++ [Wait; CloseIdleConnections c] |})
  end.

Inductive Op : Type :=
| Start (c : option Client) (err : option error)
| Stop.

Definition step (op : Op) (m : exporter) : option error * exporter :=
  match op with
  | Start c err => start c err m
  | Stop => stop m
  end.

(** A sequence of calls, with the error each returned. *)
Fixpoint run (ops : list Op) (m : exporter) : list (option error) * exporter :=
  match ops with
  | [] => ([], m)
  | op :: rest =>
      let '(err, m') := step op m in
      let '(errs, m'') := run rest m' in
      (err :: errs, m'')
  end.

(** The error [ToClientContext] gave to a [start]; a [stop] has none. *)
Definition returned (op : Op) : option error :=
  match op with
  | Start _ err => err
  | Stop => None
  end.

(** The client an exporter holds, as a list. *)
Definition held (m : exporter) : list Client :=
  match client m with
  | Some c => [c]
  | None => []
  end.

(** The clients the calls handed to the exporter, and the clients whose idle
    connections it closed. *)
Fixpoint started (ops : list Op) : list Client :=
  match ops with
  | [] => []
  | Start (Some c) _ :: rest => c :: started rest
  | _ :: rest => started rest
  end.

Fixpoint closedClients (evs : list Event) : list Client :=
  match evs with
  | [] => []
  | CloseIdleConnections c :: rest => c :: closedClients rest
  | Wait :: rest => closedClients rest
  end.

(** What closing the clients [cs] one after the other leaves behind. *)
Definition closing (cs : list Client) : list Event :=
  flat_map (λ c, [Wait; CloseIdleConnections c]) cs.

End lifecycle.

(** ** The exporter *)

Section Exporter.

(** Declared elsewhere in the package: the truncation helper and the size
    limits. *)
Variable truncateString : string → Z → string.
Variables maxBodySize maxMessageSize maxMetaDataSize maxAppnameLen maxLogLevelLen : Z.

(** [json.Marshal] on a line. *)
Variable json_Marshal : mezmoLogLine → result string.

(** compress/gzip writing into an in-memory buffer: the error [Write] reports
    for the data, if any, and the stream the buffer holds once the writer
    that accepted the data has been closed. *)
Variable gzip_Write : string → option error.
Variable gzip_stream : string → string.

(** [req.URL.Path] of the request built for an ingest URL. *)
Variable URL_Path : string → string.

(** *** Normalisation: the body of the innermost loop (lines 99-140) *)

Definition recordToLine (hasResourceHostName : bool)
    (resourceHostName : pcommon.Value) (log : plog.LogRecord) : M mezmoLogLine :=
  let attrs : gmap string string := ∅ in
  let attrs :=
    if hasResourceHostName
    then <["hostname" := pcommon.AsString resourceHostName]> attrs
    else attrs in
  let traceID := plog.TraceID log in
  let attrs :=
    if negb (pcommon.IsEmpty traceID)
    then <["trace.id" := hex.EncodeToString traceID]> attrs
    else attrs in
  let spanID := plog.SpanID log in
  let attrs :=
    if negb (pcommon.IsEmpty spanID)
    then <["span.id" := hex.EncodeToString spanID]> attrs
    else attrs in
  let attrs :=
    pcommon.Range (plog.Attributes log)
      (λ k v (attrs : gmap string string),
         (<[k := truncateString (pcommon.Str v) maxMetaDataSize]> attrs, true))
      attrs in
  let s := (pcommon.Get (plog.Attributes log) "appname").1 in
  let app := pcommon.Str s in
  let tstamp := time.UnixMilli (time.AsTime (plog.Timestamp log)) in
  tstamp ← (if tstamp =? 0 then time_Now_UnixMilli else mret tstamp);
  let logLevel := truncateString (plog.SeverityText log) maxLogLevelLen in
  let logLevel := if String.eqb logLevel "" then "info" else logLevel in
  mret {| Timestamp := tstamp;
         Line := truncateString (pcommon.Str (plog.Body log)) maxMessageSize;
         App := truncateString app maxAppnameLen;
         Level := logLevel;
         Meta := attrs |}.

(** The loop over the records of one scope (index [k]). *)
Fixpoint convertRecords (hasResourceHostName : bool) (resourceHostName : pcommon.Value)
    (logs : list plog.LogRecord) (lines : list mezmoLogLine) : M (list mezmoLogLine) :=
  match logs with
  | [] => mret lines
  | log :: rest =>
      line ← recordToLine hasResourceHostName resourceHostName log;
      convertRecords hasResourceHostName resourceHostName rest (lines ++ [line])
  end.

(** The loop over the scopes of one resource (index [j]). *)
Fixpoint convertScopes (hasResourceHostName : bool) (resourceHostName : pcommon.Value)
    (scopeLogs : list plog.ScopeLogs) (lines : list mezmoLogLine) : M (list mezmoLogLine) :=
  match scopeLogs with
  | [] => mret lines
  | sl :: rest =>
      lines ← convertRecords hasResourceHostName resourceHostName
                (plog.LogRecords sl) lines;
      convertScopes hasResourceHostName resourceHostName rest lines
  end.

(** The loop over the resources of the batch (index [i]). *)
Fixpoint convertResources (resourceLogs : list plog.ResourceLogs)
    (lines : list mezmoLogLine) : M (list mezmoLogLine) :=
  match resourceLogs with
  | [] => mret lines
  | rl :: rest =>
      let '(resourceHostName, hasResourceHostName) :=
        pcommon.Get (plog.Resource rl) "host.name" in
      lines ← convertScopes hasResourceHostName resourceHostName
                (plog.ScopeLogsSlice rl) lines;
      convertResources rest lines
  end.

(** *** Transport: [sendLinesToMezmo]

    [http.NewRequest] fails only on a malformed method or URL; its error is
    dropped by the source and the ingest URL is taken to be well formed.  The
    deferred [bytesPool.Put] calls hand the buffers back when the function
    returns and have no part in what is sent. *)

Definition sendLinesToMezmo (m : mezmoExporter) (b : string) : M unit :=
  r ← (if Compression (config m) then
         buf ← bytesPool_Get;
         let buf := Buffer.Reset buf in
         match gzip_Write b with
         | Some err => throw (Errorf_wrap "failed to compress log data" err)
         | None => mret (Buffer.Write buf (gzip_stream b))
         end
       else mret b);
  let hdr := [("Accept", "application/json");
              ("Content-Type", "application/json");
              ("User-Agent", userAgentString m);
              ("apikey", IngestKey (config m))] in
  let hdr :=
    if Compression (config m) then hdr ++ [("Content-Encoding", "gzip")] else hdr in
  let req := {| Method := "POST"; URL := IngestURL (config m);
                Header := hdr; ReqBody := r |} in
  res ← mapError (Errorf_wrap "failed to POST log to Mezmo") (client_Do_req req);
  (if 400 <=? StatusCode res then
     emit (EvLogError ("got http status (" +:+ URL_Path (URL req) +:+ "): " +:+ Status res));;
     checkLevel ← log_Check_Debug;
     if checkLevel : bool then
       let responseBody := RespBody res in
       emit (EvReadAll responseBody);;
       emit (EvLogDebug "http response" responseBody)
     else mret tt
   else mret tt : M unit);;
  emit (EvClose res);;
  match CloseResult res with
  | Some err => throw err
  | None => mret tt
  end.

(** *** Batch assembly: the loop of lines 152-173 and [logDataToMezmo] *)

Fixpoint assemble (m : mezmoExporter) (b : string) (i : nat)
    (lines : list mezmoLogLine) : M string :=
  match lines with
  | [] => mret b
  | line :: rest =>
      let b := if (0 <? i)%nat then Buffer.WriteRune b ","%char else b in
      match json_Marshal line with
      | Fail errs => throw (Errorf_wrap "error Creating JSON payload" errs)
      | Ok lineBytes =>
          let newBufSize := Buffer.Len b + len lineBytes in
          b ← (if maxBodySize - 2 <=? newBufSize then
                 let b := Buffer.WriteString b footer in
                 sendLinesToMezmo m b;;
                 let b := Buffer.Reset b in
                 mret (Buffer.WriteString b header)
               else mret b);
          let b := Buffer.Write b lineBytes in
          assemble m b (S i) rest
      end
  end.

Definition logDataToMezmo (m : mezmoExporter) (ld : plog.Logs) : M unit :=
  lines ← convertResources ld [];
  b ← bytesPool_Get;
  let b := Buffer.Reset b in
  let b := Buffer.WriteString b header in
  b ← assemble m b 0 lines;
  let b := Buffer.WriteString b footer in
  sendLinesToMezmo m b.

(** [pushLogData]: the wait-group bookkeeping around [logDataToMezmo] has no
    effect on what one push does. *)
Definition pushLogData (m : mezmoExporter) (ld : plog.Logs) : M unit :=
  logDataToMezmo m ld.

(** *** Vocabulary that depends on the libraries *)

(** The body of the request that carries a document. *)
Definition payload (m : mezmoExporter) (doc : string) : string :=
  if Compression (config m) then gzip_stream doc else doc.

(** The request [sendLinesToMezmo] builds for a document. *)
Definition requestFor (m : mezmoExporter) (doc : string) : Request :=
  {| Method := "POST";
     URL := IngestURL (config m);
     Header := [("Accept", "application/json");
                ("Content-Type", "application/json");
                ("User-Agent", userAgentString m);
                ("apikey", IngestKey (config m))]
               ++ (if Compression (config m) then [("Content-Encoding", "gzip")] else []);
     ReqBody := payload m doc |}.

(** The diagnostics written for a response. *)
Definition diagnostics (env : Env) (m : mezmoExporter) (res : Response) : list Event :=
  if 400 <=? StatusCode res then
    EvLogError ("got http status (" +:+ URL_Path (IngestURL (config m)) +:+ "): "
                +:+ Status res)
    :: (if debugEnabled env
        then [EvReadAll (RespBody res); EvLogDebug "http response" (RespBody res)]
        else [])
  else [].

(** The compressor, when there is one, accepts the document. *)
Definition compresses (m : mezmoExporter) (doc : string) : Prop :=
  Compression (config m) = true → gzip_Write doc = None.

(** The encodings of the lines of a group. *)
Definition encodings (g : list mezmoLogLine) (encs : list string) : Prop :=
  Forall2 (λ l e, json_Marshal l = Ok e) g encs.

(** The request carries a document that lists exactly the lines of the group. *)
Definition carries (m : mezmoExporter) (req : Request) (g : list mezmoLogLine) : Prop :=
  ∃ encs trailing, encodings g encs ∧ req = requestFor m (document encs trailing).

(** The body of the request is a well-formed document whose array of lines
    is the group: the opening literal, the encodings of the lines with
    commas between them and nothing after the last, the closing literal. *)
Definition linesArray (m : mezmoExporter) (req : Request) (g : list mezmoLogLine) : Prop :=
  ∃ encs, encodings g encs ∧ req = requestFor m (document encs false).

(** The documents a push sends for the encoded lines when nothing fails:
    the loop of [assemble] without its effects, with the final document. *)
Fixpoint plan (b : string) (i : nat) (encs : list string) : list string :=
  match encs with
  | [] => [b +:+ footer]
  | lineBytes :: rest =>
      let b := if (0 <? i)%nat then b +:+ "," else b in
      if maxBodySize - 2 <=? len b + len lineBytes
      then (b +:+ footer) :: plan (header +:+ lineBytes) (S i) rest
      else plan (b +:+ lineBytes) (S i) rest
  end.

(** Normalising the records of a batch one after the other. *)
Definition normalized (ld : plog.Logs) : M (list mezmoLogLine) :=
  forEach (λ r, recordToLine r.1.2 r.1.1 r.2) (recordsOf ld).

(** ** Properties *)

(** *** Strings *)

Lemma length_app_string (s t : string) :
  String.length (s +:+ t) = (String.length s + String.length t)%nat.
Proof.
  induction s as [|c s IH]; [done|].
  change (S (String.length (s +:+ t)) = S (String.length s + String.length t)).
  by rewrite IH.
Qed.

Lemma len_app (s t : string) : len (s +:+ t) = len s + len t.
Proof. unfold len. rewrite length_app_string. lia. Qed.

Lemma app_assoc_string (s t u : string) : (s +:+ t) +:+ u = s +:+ (t +:+ u).
Proof.
  induction s as [|c s IH]; [done|].
  change (String c ((s +:+ t) +:+ u) = String c (s +:+ (t +:+ u))).
  by rewrite IH.
Qed.

Lemma app_empty_r (s : string) : s +:+ "" = s.
Proof.
  induction s as [|c s IH]; [done|].
  change (String c (s +:+ "") = String c s). by rewrite IH.
Qed.

Lemma app_empty_l (s : string) : "" +:+ s = s.
Proof. reflexivity. Qed.

Lemma len_nonneg (s : string) : 0 <= len s.
Proof. unfold len. lia. Qed.

(** *** The normaliser *)

(** A [Range] that stores every entry under its key leaves, under each key,
    the last entry's value, and what was there before under the other keys. *)
Lemma Range_store_lookup (f : pcommon.Value → string) (attrs : pcommon.Map)
    (m0 : gmap string string) (key : string) :
  pcommon.Range attrs (λ k v (a : gmap string string), (<[k := f v]> a, true)) m0 !! key
  = match lastValue attrs key with
    | Some v => Some (f v)
    | None => m0 !! key
    end.
Proof.
  revert m0. induction attrs as [|[k v] rest IH]; intros m0; simpl; [done|].
  rewrite IH. destruct (lastValue rest key) as [v'|]; [done|].
  destruct (String.eqb_spec k key) as [->|Hne].
  - by rewrite lookup_insert_eq.
  - by rewrite lookup_insert_ne.
Qed.

(** Normalising a record always succeeds; it reads the clock when, and only
    when, the record's timestamp is zero milliseconds. *)
Lemma recordToLine_run (h : bool) (host : pcommon.Value) (log : plog.LogRecord)
    (env : Env) (s : State) :
  ∃ line, recordToLine h host log env s
    = (Ok line,
       if time.UnixMilli (time.AsTime (plog.Timestamp log)) =? 0
       then {| clockReads := S (clockReads s); poolGets := poolGets s;
               exchanges := exchanges s; trace := trace s |}
       else s).
Proof.
  unfold recordToLine, mbind, M_bind, mret, M_ret, time_Now_UnixMilli.
  destruct (time.UnixMilli (time.AsTime (plog.Timestamp log)) =? 0); eauto.
Qed.

(** The milliseconds of a record's timestamp: its nanoseconds, read as a
    signed 64-bit number, divided by a million and rounded down. *)
Lemma UnixMilli_AsTime (ts : pcommon.Timestamp) :
  time.UnixMilli (time.AsTime ts) = time.int64_of_uint64 ts `div` 1000000.
Proof.
  unfold time.AsTime, time.Unix, time.UnixMilli.
  generalize (time.int64_of_uint64 ts); intros n.
  pose proof (Z.quot_rem' n 1000000000) as Hq.
  assert (Hrem : n - n `quot` 1000000000 * 1000000000 = n `rem` 1000000000) by lia.
  destruct (n <? 0) eqn:Hneg; simpl.
  - apply Z.ltb_lt in Hneg.
    pose proof (Z.rem_bound_pos_neg n 1000000000 ltac:(lia) ltac:(lia)) as Hb.
    rewrite Hrem.
    destruct (n `rem` 1000000000 <? 0) eqn:Hr; simpl.
    + remember (n `rem` 1000000000 + 1000000000) as r eqn:Er.
      rewrite (Z.quot_div_nonneg r 1000000) by lia.
      pose proof (Z.div_mod r 1000000 ltac:(lia)).
      pose proof (Z.mod_pos_bound r 1000000 ltac:(lia)).
      apply Z.div_unique with (r := r `mod` 1000000); lia.
    + apply Z.ltb_ge in Hr.
      assert (n `rem` 1000000000 = 0) as Hz by lia.
      rewrite Hz. change (0 `quot` 1000000) with 0.
      apply Z.div_unique with (r := 0); lia.
  - apply Z.ltb_ge in Hneg.
    pose proof (Z.rem_bound_pos n 1000000000 ltac:(lia) ltac:(lia)) as Hb.
    destruct (1000000000 <=? n) eqn:Hbig; simpl.
    + rewrite Hrem.
      destruct (n `rem` 1000000000 <? 0) eqn:Hr; [apply Z.ltb_lt in Hr; lia|]. simpl.
      remember (n `rem` 1000000000) as r eqn:Er.
      rewrite (Z.quot_div_nonneg r 1000000) by lia.
      pose proof (Z.div_mod r 1000000 ltac:(lia)).
      pose proof (Z.mod_pos_bound r 1000000 ltac:(lia)).
      apply Z.div_unique with (r := r `mod` 1000000); lia.
    + apply Z.leb_gt in Hbig. rewrite (Z.quot_div_nonneg n 1000000) by lia. lia.
Qed.

(** Hexadecimal encoding writes two lowercase digits per byte. *)
Lemma EncodeToString_lowerHex (src : list Byte.byte) :
  allChars lowerHex (hex.EncodeToString src) = true.
Proof.
  induction src as [|v rest IH]; [done|].
  cbn [hex.EncodeToString allChars]. rewrite IH.
  by destruct v.
Qed.

Lemma EncodeToString_length (src : list Byte.byte) :
  String.length (hex.EncodeToString src) = (2 * length src)%nat.
Proof. induction src as [|v rest IH]; [done|]. cbn [hex.EncodeToString String.length length]. lia. Qed.

(** The entries written before the record's own attributes. *)
Lemma resource_entries_lookup (h : bool) (host : pcommon.Value) (log : plog.LogRecord)
    (key : string) :
  (let attrs : gmap string string := ∅ in
   let attrs := if h then <["hostname" := pcommon.AsString host]> attrs else attrs in
   let attrs :=
     if negb (pcommon.IsEmpty (plog.TraceID log))
     then <["trace.id" := hex.EncodeToString (plog.TraceID log)]> attrs else attrs in
   if negb (pcommon.IsEmpty (plog.SpanID log))
   then <["span.id" := hex.EncodeToString (plog.SpanID log)]> attrs else attrs) !! key
  = resourceDerived h host log key.
Proof.
  unfold resourceDerived. cbv zeta.
  destruct (String.eqb_spec key "hostname") as [->|H1];
    [|destruct (String.eqb_spec key "trace.id") as [->|H2];
      [|destruct (String.eqb_spec key "span.id") as [->|H3]]];
    destruct h, (pcommon.IsEmpty (plog.TraceID log)), (pcommon.IsEmpty (plog.SpanID log));
    simpl; by simplify_map_eq.
Qed.

Ltac run_recordToLine :=
  unfold recordToLine, mbind, M_bind, mret, M_ret, time_Now_UnixMilli;
  match goal with
  | |- context [time.UnixMilli ?t =? 0] =>
      let E := fresh "Ems" in
      destruct (time.UnixMilli t =? 0) eqn:E
  end;
  (eexists _, _; split; [reflexivity|]); cbn [Timestamp Line App Level Meta].

(** C7: the level of a line is "info" when the record's severity text is
    empty after truncation to [maxLogLevelLen] and the truncated severity
    text otherwise; its timestamp is the wall clock's reading when the
    record's timestamp is zero milliseconds since the epoch and the
    record's timestamp in milliseconds otherwise. *)
Theorem level_and_timestamp_defaults (h : bool) (host : pcommon.Value)
    (log : plog.LogRecord) (env : Env) (s : State) :
  ∃ line s', recordToLine h host log env s = (Ok line, s') ∧
    let severity := truncateString (plog.SeverityText log) maxLogLevelLen in
    let millis := time.int64_of_uint64 (plog.Timestamp log) `div` 1000000 in
    (severity = "" → Level line = "info") ∧
    (severity ≠ "" → Level line = severity) ∧
    (Level line = "info" ↔ severity = "" ∨ severity = "info") ∧
    (millis = 0 → Timestamp line = clock env (clockReads s)
                  ∧ clockReads s' = S (clockReads s)) ∧
    (millis ≠ 0 → Timestamp line = millis ∧ clockReads s' = clockReads s).
Proof.
  cbv zeta. rewrite <- UnixMilli_AsTime.
  run_recordToLine.
  - apply Z.eqb_eq in Ems.
    destruct (String.eqb_spec (truncateString (plog.SeverityText log) maxLogLevelLen) "")
      as [->|Hne]; split_and!; try done; tauto.
  - apply Z.eqb_neq in Ems.
    destruct (String.eqb_spec (truncateString (plog.SeverityText log) maxLogLevelLen) "")
      as [->|Hne]; split_and!; try done; tauto.
Qed.

(** The fields of a line other than its level and timestamp. *)
Lemma recordToLine_fields (h : bool) (host : pcommon.Value)
    (log : plog.LogRecord) (env : Env) (s : State) :
  ∃ line s', recordToLine h host log env s = (Ok line, s') ∧
    Line line = truncateString (pcommon.Str (plog.Body log)) maxMessageSize ∧
    App line = truncateString
                 (pcommon.Str (pcommon.Get (plog.Attributes log) "appname").1)
                 maxAppnameLen ∧
    ∀ key,
      Meta line !! key =
        match lastValue (plog.Attributes log) key with
        | Some v => Some (truncateString (pcommon.Str v) maxMetaDataSize)
        | None => resourceDerived h host log key
        end.
Proof.
  run_recordToLine; (split_and!; [done|done|]); intros key;
    rewrite (Range_store_lookup (λ v, truncateString (pcommon.Str v) maxMetaDataSize));
    by rewrite resource_entries_lookup.
Qed.

(** C6, as the code has it: under a key that the record's attributes use,
    the meta mapping holds the truncated string value of the last such
    attribute; under any other key it holds what the resource and the
    identifiers contribute: "hostname" exactly when the resource has a
    host name, "trace.id" and "span.id", in lowercase hexadecimal, exactly
    when the identifier is not empty, and nothing else. *)
Theorem meta_keys_of_line (h : bool) (host : pcommon.Value)
    (log : plog.LogRecord) (env : Env) (s : State) :
  ∃ line s', recordToLine h host log env s = (Ok line, s') ∧
    (∀ key,
       Meta line !! key =
         match lastValue (plog.Attributes log) key with
         | Some v => Some (truncateString (pcommon.Str v) maxMetaDataSize)
         | None => resourceDerived h host log key
         end) ∧
    (∀ key, is_Some (Meta line !! key) ↔
              is_Some (lastValue (plog.Attributes log) key)
              ∨ (key = "hostname" ∧ h = true)
              ∨ (key = "trace.id" ∧ pcommon.IsEmpty (plog.TraceID log) = false)
              ∨ (key = "span.id" ∧ pcommon.IsEmpty (plog.SpanID log) = false)) ∧
    allChars lowerHex (hex.EncodeToString (plog.TraceID log)) = true ∧
    allChars lowerHex (hex.EncodeToString (plog.SpanID log)) = true.
Proof.
  destruct (recordToLine_fields h host log env s) as (line & s' & Hrun & _ & _ & Hmeta).
  exists line, s'. split_and!; [done|done| |apply EncodeToString_lowerHex..].
  intros key. rewrite Hmeta. unfold resourceDerived.
  destruct (lastValue (plog.Attributes log) key) as [v|].
  { split; [intros _; left; eauto|eauto]. }
  destruct (String.eqb_spec key "hostname") as [->|H1].
  { destruct h; split.
    - intros _. right; left. done.
    - eauto.
    - intros [? ?]. done.
    - intros [[? ?]|[[_ ?]|[[? _]|[? _]]]]; done. }
  destruct (String.eqb_spec key "trace.id") as [->|H2].
  { destruct (pcommon.IsEmpty (plog.TraceID log)); split.
    - intros [? ?]. done.
    - intros [[? ?]|[[? _]|[[_ ?]|[? _]]]]; done.
    - intros _. right; right; left. done.
    - eauto. }
  destruct (String.eqb_spec key "span.id") as [->|H3].
  { destruct (pcommon.IsEmpty (plog.SpanID log)); split.
    - intros [? ?]. done.
    - intros [[? ?]|[[? _]|[[? _]|[_ ?]]]]; done.
    - intros _. right; right; right. done.
    - eauto. }
  split.
  - intros [? ?]. done.
  - intros [[? ?]|[[? _]|[[? _]|[? _]]]]; done.
Qed.

(** C5 does not hold of the code: the host name of the resource goes into the
    meta mapping as its string representation, whole, whatever the
    truncation helper and [maxMetaDataSize] are; only a record attribute
    named "hostname" would replace it. *)
Theorem resource_hostname_is_stored_whole (host : pcommon.Value)
    (log : plog.LogRecord) (env : Env) (s : State) :
  lastValue (plog.Attributes log) "hostname" = None →
  ∃ line s', recordToLine true host log env s = (Ok line, s') ∧
    Meta line !! "hostname" = Some (pcommon.AsString host).
Proof.
  intros Hnone.
  destruct (recordToLine_fields true host log env s) as (line & s' & Hrun & _ & _ & Hmeta).
  exists line, s'. split; [done|]. by rewrite Hmeta, Hnone.
Qed.

(** C10: a record attribute whose value is not a string leaves the empty
    string under its key, and a body that is not a string leaves an empty
    line, where the host name of the resource is written as the string
    representation of its value, whatever its type. *)
Theorem non_string_values_become_empty (h : bool) (host : pcommon.Value)
    (log : plog.LogRecord) (env : Env) (s : State) :
  (∀ n, truncateString "" n = "") →
  ∃ line s', recordToLine h host log env s = (Ok line, s') ∧
    (∀ key v, lastValue (plog.Attributes log) key = Some v →
              pcommon.is_string v = false → Meta line !! key = Some "") ∧
    (pcommon.is_string (plog.Body log) = false → Line line = "") ∧
    (h = true → lastValue (plog.Attributes log) "hostname" = None →
     Meta line !! "hostname" = Some (pcommon.AsString host)).
Proof.
  intros Htrunc.
  destruct (recordToLine_fields h host log env s) as (line & s' & Hrun & Hline & _ & Hmeta).
  exists line, s'. split_and!; [done| | |].
  - intros key v Hlast Hv. rewrite Hmeta, Hlast.
    destruct v; try discriminate Hv; cbn [pcommon.Str]; by rewrite Htrunc.
  - intros Hb. rewrite Hline.
    destruct (plog.Body log); try discriminate Hb; cbn [pcommon.Str]; by rewrite Htrunc.
  - intros -> Hnone. by rewrite Hmeta, Hnone.
Qed.

(** *** The transport sender *)

Lemma requests_app (t u : list Event) : requests (t ++ u) = requests t ++ requests u.
Proof.
  induction t as [|ev t IH]; [done|].
  destruct ev; simpl; by rewrite ?IH.
Qed.

Lemma requests_diagnostics (env : Env) (m : mezmoExporter) (res : Response) :
  requests (diagnostics env m res) = [].
Proof.
  unfold diagnostics.
  destruct (400 <=? StatusCode res); [|done].
  by destruct (debugEnabled env).
Qed.

Ltac simpl_requests :=
  repeat first
    [ rewrite requests_app
    | rewrite requests_diagnostics
    | progress cbn [requests app] ].

Ltac run_monad :=
  unfold mbind, M_bind, mret, M_ret, throw, mapError, emit, client_Do_req,
    bytesPool_Get, log_Check_Debug; cbn beta iota.

(** A completed exchange: the request is issued, the diagnostics for the
    response are written, the body is closed, and the call returns what
    closing the body returned. *)
Lemma sendLinesToMezmo_completed (m : mezmoExporter) (b : string) (env : Env)
    (s : State) (res : Response) :
  compresses m b →
  client_Do env (exchanges s) (requestFor m b) = Ok res →
  sendLinesToMezmo m b env s
  = (match CloseResult res with Some err => Fail err | None => Ok () end,
     {| clockReads := clockReads s;
        poolGets := if Compression (config m) then S (poolGets s) else poolGets s;
        exchanges := S (exchanges s);
        trace := trace s ++ [EvDo (requestFor m b)] ++ diagnostics env m res
                 ++ [EvClose res] |}).
Proof.
  intros Hgz Hdo. unfold sendLinesToMezmo, compresses, requestFor, payload, diagnostics in *.
  destruct (Compression (config m)) eqn:Hc; run_monad.
  - rewrite (Hgz eq_refl). unfold Buffer.Write, Buffer.Reset. rewrite !app_empty_l.
    cbn [exchanges trace poolGets clockReads]. rewrite Hdo. cbn [URL].
    destruct (400 <=? StatusCode res); cbn [exchanges trace poolGets clockReads].
    + destruct (debugEnabled env); cbn [exchanges trace poolGets clockReads];
        destruct (CloseResult res); rewrite <- ?app_assoc; reflexivity.
    + destruct (CloseResult res); rewrite <- ?app_assoc; reflexivity.
  - cbn [exchanges trace poolGets clockReads app] in *. rewrite ?app_nil_r in *.
    rewrite Hdo. cbn [URL].
    destruct (400 <=? StatusCode res); cbn [exchanges trace poolGets clockReads].
    + destruct (debugEnabled env); cbn [exchanges trace poolGets clockReads];
        destruct (CloseResult res); rewrite <- ?app_assoc; reflexivity.
    + destruct (CloseResult res); rewrite <- ?app_assoc; reflexivity.
Qed.

(** A failed exchange: the request was issued, nothing else happens, and the
    transport's error is returned wrapped. *)
Lemma sendLinesToMezmo_transport_error (m : mezmoExporter) (b : string) (env : Env)
    (s : State) (errs : error) :
  compresses m b →
  client_Do env (exchanges s) (requestFor m b) = Fail errs →
  sendLinesToMezmo m b env s
  = (Fail (Errorf_wrap "failed to POST log to Mezmo" errs),
     {| clockReads := clockReads s;
        poolGets := if Compression (config m) then S (poolGets s) else poolGets s;
        exchanges := S (exchanges s);
        trace := trace s ++ [EvDo (requestFor m b)] |}).
Proof.
  intros Hgz Hdo. unfold sendLinesToMezmo, compresses, requestFor, payload in *.
  destruct (Compression (config m)) eqn:Hc; run_monad.
  - rewrite (Hgz eq_refl). unfold Buffer.Write, Buffer.Reset. rewrite !app_empty_l.
    cbn [exchanges trace poolGets clockReads]. by rewrite Hdo.
  - cbn [exchanges trace poolGets clockReads app] in *. rewrite ?app_nil_r in *.
    by rewrite Hdo.
Qed.

(** A failed compression: no request is issued. *)
Lemma sendLinesToMezmo_compress_error (m : mezmoExporter) (b : string) (env : Env)
    (s : State) (err : error) :
  Compression (config m) = true →
  gzip_Write b = Some err →
  sendLinesToMezmo m b env s
  = (Fail (Errorf_wrap "failed to compress log data" err),
     {| clockReads := clockReads s; poolGets := S (poolGets s);
        exchanges := exchanges s; trace := trace s |}).
Proof.
  intros Hc Hgz. unfold sendLinesToMezmo. rewrite Hc. run_monad. by rewrite Hgz.
Qed.

(** Whatever happens, one call issues at most the request for its document,
    and exactly that request when it returns no error. *)
Lemma sendLinesToMezmo_requests (m : mezmoExporter) (b : string) (env : Env)
    (s s' : State) (r : result ()) :
  sendLinesToMezmo m b env s = (r, s') →
  (requests (trace s') = requests (trace s) ++ [requestFor m b]
   ∨ (requests (trace s') = requests (trace s) ∧ ∃ e, r = Fail e))
  ∧ (r = Ok () → requests (trace s') = requests (trace s) ++ [requestFor m b]).
Proof.
  intros Hrun.
  destruct (Compression (config m)) eqn:Hc.
  - destruct (gzip_Write b) as [err|] eqn:Hgz.
    + rewrite (sendLinesToMezmo_compress_error m b env s err Hc Hgz) in Hrun.
      injection Hrun as <- <-. split; [right; eauto|done].
    + assert (compresses m b) as Hok by (intros _; done).
      destruct (client_Do env (exchanges s) (requestFor m b)) as [res|errs] eqn:Hdo.
      * rewrite (sendLinesToMezmo_completed m b env s res Hok Hdo) in Hrun.
        injection Hrun as <- <-. cbn [trace].
        rewrite requests_app. cbn [requests].
        rewrite requests_app, requests_diagnostics. cbn [requests app].
        split; [by left|done].
      * rewrite (sendLinesToMezmo_transport_error m b env s errs Hok Hdo) in Hrun.
        injection Hrun as <- <-. cbn [trace]. rewrite requests_app. cbn [requests].
        split; [by left|done].
  - assert (compresses m b) as Hok by (intros Hc'; congruence).
    destruct (client_Do env (exchanges s) (requestFor m b)) as [res|errs] eqn:Hdo.
    + rewrite (sendLinesToMezmo_completed m b env s res Hok Hdo) in Hrun.
      injection Hrun as <- <-. cbn [trace].
      rewrite requests_app. cbn [requests].
        rewrite requests_app, requests_diagnostics. cbn [requests app].
      split; [by left|done].
    + rewrite (sendLinesToMezmo_transport_error m b env s errs Hok Hdo) in Hrun.
      injection Hrun as <- <-. cbn [trace]. rewrite requests_app. cbn [requests].
      split; [by left|done].
Qed.

(** *** The batch assembler *)

Lemma Join_snoc (encs : list string) (e sep : string) :
  encs ≠ [] → Join (encs ++ [e]) sep = Join encs sep +:+ sep +:+ e.
Proof.
  induction encs as [|x [|y rest] IH]; intros Hne; [done|reflexivity|].
  change (Join ((x :: y :: rest) ++ [e]) sep)
    with (x +:+ sep +:+ Join ((y :: rest) ++ [e]) sep).
  rewrite IH by done.
  change (Join (x :: y :: rest) sep) with (x +:+ sep +:+ Join (y :: rest) sep).
  by rewrite !app_assoc_string.
Qed.

(** One iteration of the loop. *)
Lemma assemble_cons (m : mezmoExporter) (b : string) (i : nat) (line : mezmoLogLine)
    (rest : list mezmoLogLine) (env : Env) (s : State) :
  assemble m b i (line :: rest) env s
  = let b1 := if (0 <? i)%nat then b +:+ "," else b in
    match json_Marshal line with
    | Fail errs => (Fail (Errorf_wrap "error Creating JSON payload" errs), s)
    | Ok lineBytes =>
        if maxBodySize - 2 <=? len b1 + len lineBytes then
          match sendLinesToMezmo m (b1 +:+ footer) env s with
          | (Ok _, s1) => assemble m (header +:+ lineBytes) (S i) rest env s1
          | (Fail errs, s1) => (Fail errs, s1)
          end
        else assemble m (b1 +:+ lineBytes) (S i) rest env s
    end.
Proof.
  cbn [assemble]. cbv zeta.
  unfold Buffer.WriteRune, Buffer.WriteString, Buffer.Write, Buffer.Reset, Buffer.Len.
  destruct (json_Marshal line) as [lineBytes|errs]; [|reflexivity].
  destruct (maxBodySize - 2 <=? _); [|reflexivity].
  unfold mbind, M_bind, mret, M_ret.
  destruct (sendLinesToMezmo m _ env s) as [[[]|errs] s1]; reflexivity.
Qed.

Lemma encodings_nil_inv (encs : list string) : encodings [] encs → encs = [].
Proof. intros H. by apply Forall2_nil_inv_l in H. Qed.

Lemma encodings_nonempty (g : list mezmoLogLine) (encs : list string) :
  encodings g encs → g ≠ [] → encs ≠ [].
Proof. intros H Hne ->. apply Forall2_nil_inv_r in H. done. Qed.

(** The buffer before a flush is a document but for its footer. *)
Lemma buffer_flushed (cur : list mezmoLogLine) (curEncs : list string) (i : nat) :
  (i = 0%nat → cur = []) → encodings cur curEncs →
  (if (0 <? i)%nat then (header +:+ Join curEncs ",") +:+ "," else header +:+ Join curEncs ",")
    +:+ footer
  = document curEncs (0 <? i)%nat.
Proof.
  intros H0 Henc. unfold document.
  destruct i as [|i]; cbn [Nat.ltb Nat.leb].
  - rewrite (encodings_nil_inv curEncs) by (rewrite <- (H0 eq_refl); done).
    reflexivity.
  - by rewrite !app_assoc_string.
Qed.

(** The buffer after a line has been appended without a flush. *)
Lemma buffer_appended (cur : list mezmoLogLine) (curEncs : list string) (i : nat)
    (e : string) :
  (i = 0%nat → cur = []) → (i ≠ 0%nat → cur ≠ []) → encodings cur curEncs →
  (if (0 <? i)%nat then (header +:+ Join curEncs ",") +:+ "," else header +:+ Join curEncs ",")
    +:+ e
  = header +:+ Join (curEncs ++ [e]) ",".
Proof.
  intros H0 H1 Henc.
  destruct i as [|i]; cbn [Nat.ltb Nat.leb].
  - rewrite (encodings_nil_inv curEncs) by (rewrite <- (H0 eq_refl); done).
    by rewrite app_assoc_string.
  - rewrite Join_snoc by (eapply encodings_nonempty; [done|]; by apply H1).
    by rewrite !app_assoc_string.
Qed.

(** What the loop sends: every request it issues carries a group of
    consecutive lines, the groups follow one another in the order of the
    lines, and when the loop finishes the lines that were not sent are in
    the buffer. *)
Lemma assemble_sound (m : mezmoExporter) (lines : list mezmoLogLine) :
  ∀ (cur : list mezmoLogLine) (curEncs : list string) (i : nat) (env : Env)
    (s s' : State) (r : result string),
    encodings cur curEncs →
    (i = 0%nat → cur = []) → (i ≠ 0%nat → cur ≠ []) →
    assemble m (header +:+ Join curEncs ",") i lines env s = (r, s') →
    ∃ reqs groups,
      requests (trace s') = requests (trace s) ++ reqs ∧
      Forall2 (carries m) reqs groups ∧
      match r with
      | Ok b' =>
          ∃ last lastEncs,
            encodings last lastEncs ∧ b' = header +:+ Join lastEncs "," ∧
            concat groups ++ last = cur ++ lines ∧
            (cur ++ lines ≠ [] → last ≠ [])
      | Fail _ => concat groups `prefix_of` cur ++ lines
      end.
Proof.
  induction lines as [|line rest IH]; intros cur curEncs i env s s' r Henc H0 H1 Hrun.
  - cbn in Hrun. injection Hrun as <- <-.
    exists [], []. rewrite ?app_nil_r. split_and!; [done|constructor|].
    exists cur, curEncs. by rewrite ?app_nil_r.
  - rewrite assemble_cons in Hrun. cbv zeta in Hrun.
    destruct (json_Marshal line) as [e|errs] eqn:He.
    2:{ injection Hrun as <- <-. exists [], []. rewrite ?app_nil_r.
        split_and!; [done|constructor|]. apply prefix_nil. }
    destruct (maxBodySize - 2 <=? _).
    + rewrite (buffer_flushed cur curEncs i H0 Henc) in Hrun.
      destruct (sendLinesToMezmo m _ env s) as [r1 s1] eqn:Hsend.
      apply sendLinesToMezmo_requests in Hsend as [Hreq Hok].
      assert (Hcar : carries m (requestFor m (document curEncs (0 <? i)%nat)) cur)
        by (exists curEncs, (0 <? i)%nat; done).
      destruct r1 as [[]|errs].
      * specialize (Hok eq_refl).
        assert (Henc1 : encodings [line] [e]) by (constructor; [done|constructor]).
        destruct (IH [line] [e] (S i) env s1 s' r Henc1 ltac:(done) ltac:(done) Hrun)
          as (reqs & groups & Hreqs & Hcars & Hres).
        exists (requestFor m (document curEncs (0 <? i)%nat) :: reqs), (cur :: groups).
        split_and!.
        -- rewrite Hreqs, Hok. by rewrite <- app_assoc.
        -- by constructor.
        -- destruct r as [b'|errs].
           ++ destruct Hres as (last & lastEncs & Hl1 & Hl2 & Hl3 & Hl4).
              exists last, lastEncs. split_and!; [done|done| |].
              ** cbn [concat]. rewrite <- app_assoc. by rewrite Hl3.
              ** intros _. by apply Hl4.
           ++ cbn [concat]. by apply prefix_app.
      * injection Hrun as <- <-.
        destruct Hreq as [Hreq|[Hreq _]].
        -- exists [requestFor m (document curEncs (0 <? i)%nat)], [cur].
           split_and!; [done|by repeat constructor|].
           cbn [concat]. rewrite ?app_nil_r. by apply prefix_app_r.
        -- exists [], []. rewrite ?app_nil_r.
           split_and!; [done|constructor|apply prefix_nil].
    + rewrite (buffer_appended cur curEncs i e H0 H1 Henc) in Hrun.
      assert (Henc1 : encodings (cur ++ [line]) (curEncs ++ [e])).
      { apply Forall2_app; [done|]. constructor; [done|constructor]. }
      destruct (IH (cur ++ [line]) (curEncs ++ [e]) (S i) env s s' r Henc1)
        as (reqs & groups & Hreqs & Hcars & Hres); [done| |done|].
      { intros _. by destruct cur. }
      exists reqs, groups. split_and!; [done|done|].
      rewrite <- app_assoc in Hres. cbn [app] in Hres.
      destruct r as [b'|errs]; [|done].
      destruct Hres as (last & lastEncs & Hl1 & Hl2 & Hl3 & Hl4).
      exists last, lastEncs. split_and!; [done|done|done|].
      intros _. apply Hl4. by destruct cur.
Qed.

(** *** From the batch to its lines *)

Lemma forEach_app {A B} (f : A → M B) (l1 l2 : list A) (env : Env) (s s1 s2 : State)
    (xs ys : list B) :
  forEach f l1 env s = (Ok xs, s1) →
  forEach f l2 env s1 = (Ok ys, s2) →
  forEach f (l1 ++ l2) env s = (Ok (xs ++ ys), s2).
Proof.
  revert s xs. induction l1 as [|x l1 IH]; intros s xs H1 H2.
  - cbn in H1. by injection H1 as <- <-.
  - cbn [forEach app] in *. unfold mbind, M_bind, mret, M_ret in *.
    destruct (f x env s) as [[y|e] s'] eqn:Hf; [|done].
    destruct (forEach f l1 env s') as [[ys'|e] s''] eqn:Hrest; [|done].
    injection H1 as <- <-. by rewrite (IH s' ys' Hrest H2).
Qed.

Lemma convertRecords_normalized (hp : pcommon.Value * bool) (logs : list plog.LogRecord) :
  ∀ (acc : list mezmoLogLine) (env : Env) (s : State),
    ∃ ls s',
      forEach (λ r, recordToLine r.1.2 r.1.1 r.2) (log ← logs; [(hp, log)]) env s
        = (Ok ls, s') ∧
      convertRecords hp.2 hp.1 logs acc env s = (Ok (acc ++ ls), s') ∧
      trace s' = trace s.
Proof.
  induction logs as [|log rest IH]; intros acc env s.
  - exists [], s. by rewrite app_nil_r.
  - destruct (recordToLine_run hp.2 hp.1 log env s) as [line Hline].
    set (s1 := if time.UnixMilli (time.AsTime (plog.Timestamp log)) =? 0
               then {| clockReads := S (clockReads s); poolGets := poolGets s;
                       exchanges := exchanges s; trace := trace s |}
               else s) in *.
    assert (Ht : trace s1 = trace s) by (subst s1; by destruct (_ =? 0)).
    destruct (IH (acc ++ [line]) env s1) as (ls & s' & Hfe & Hconv & Htr).
    exists (line :: ls), s'. split_and!.
    + cbn [mbind list_bind forEach app]. unfold mbind at 1 2, M_bind, mret, M_ret.
      cbn [fst snd]. rewrite Hline.
      change (log0 ← rest; [(hp, log0)]) with (mbind (M := list) (λ log0, [(hp, log0)]) rest) in Hfe.
      by rewrite Hfe.
    + cbn [convertRecords]. unfold mbind, M_bind. rewrite Hline, Hconv.
      by rewrite <- app_assoc.
    + by rewrite Htr.
Qed.

Lemma convertScopes_normalized (hp : pcommon.Value * bool) (scopes : list plog.ScopeLogs) :
  ∀ (acc : list mezmoLogLine) (env : Env) (s : State),
    ∃ ls s',
      forEach (λ r, recordToLine r.1.2 r.1.1 r.2)
        (sl ← scopes; log ← plog.LogRecords sl; [(hp, log)]) env s
        = (Ok ls, s') ∧
      convertScopes hp.2 hp.1 scopes acc env s = (Ok (acc ++ ls), s') ∧
      trace s' = trace s.
Proof.
  induction scopes as [|sl rest IH]; intros acc env s.
  - exists [], s. by rewrite app_nil_r.
  - destruct (convertRecords_normalized hp (plog.LogRecords sl) acc env s)
      as (ls1 & s1 & Hfe1 & Hconv1 & Htr1).
    destruct (IH (acc ++ ls1) env s1) as (ls2 & s2 & Hfe2 & Hconv2 & Htr2).
    exists (ls1 ++ ls2), s2. split_and!.
    + cbn [mbind list_bind]. by apply forEach_app with (s1 := s1).
    + cbn [convertScopes]. unfold mbind, M_bind. rewrite Hconv1, Hconv2.
      by rewrite <- app_assoc.
    + by rewrite Htr2.
Qed.

(** The three nested loops normalise the records of the batch one after the
    other, resource by resource and scope by scope, and touch nothing but the
    clock. *)
Lemma convertResources_normalized (ld : plog.Logs) :
  ∀ (acc : list mezmoLogLine) (env : Env) (s : State),
    ∃ ls s',
      normalized ld env s = (Ok ls, s') ∧
      convertResources ld acc env s = (Ok (acc ++ ls), s') ∧
      trace s' = trace s.
Proof.
  unfold normalized, recordsOf.
  induction ld as [|rl rest IH]; intros acc env s.
  - exists [], s. by rewrite app_nil_r.
  - destruct (convertScopes_normalized (pcommon.Get (plog.Resource rl) "host.name")
                (plog.ScopeLogsSlice rl) acc env s)
      as (ls1 & s1 & Hfe1 & Hconv1 & Htr1).
    destruct (IH (acc ++ ls1) env s1) as (ls2 & s2 & Hfe2 & Hconv2 & Htr2).
    exists (ls1 ++ ls2), s2. split_and!.
    + cbn [mbind list_bind]. by apply forEach_app with (s1 := s1).
    + cbn [convertResources].
      destruct (pcommon.Get (plog.Resource rl) "host.name") as [host has] eqn:Hget.
      cbn [fst snd] in Hconv1.
      unfold mbind, M_bind. rewrite Hconv1, Hconv2. by rewrite <- app_assoc.
    + by rewrite Htr2.
Qed.

(** *** A whole push *)

Lemma logDataToMezmo_run (m : mezmoExporter) (ld : plog.Logs) (env : Env)
    (s s1 : State) (lines : list mezmoLogLine) :
  convertResources ld [] env s = (Ok lines, s1) →
  logDataToMezmo m ld env s
  = match assemble m header 0 lines env (afterGet s1) with
    | (Ok b, s2) => sendLinesToMezmo m (b +:+ footer) env s2
    | (Fail errs, s2) => (Fail errs, s2)
    end.
Proof.
  intros Hconv. unfold logDataToMezmo, mbind, M_bind, bytesPool_Get.
  rewrite Hconv. unfold Buffer.WriteString, Buffer.Reset. rewrite app_empty_l.
  fold (afterGet s1).
  by destruct (assemble m header 0 lines env (afterGet s1)) as [[b|errs] s2].
Qed.

Lemma document_closed (encs : list string) :
  (header +:+ Join encs ",") +:+ footer = document encs false.
Proof. unfold document. by rewrite app_assoc_string. Qed.

(** The requests of a push carry, in the order they are issued, groups of
    consecutive lines, each in a body that has the encodings of the group's
    lines between the opening and the closing literal, with or without a
    comma after the last line; put end to end the groups are a prefix of the
    normalised records of the batch, taken resource by resource, scope by
    scope and record by record, and they are all of them, none dropped and
    none repeated, when the push returns no error. *)
Theorem sent_lines_complete_in_order (m : mezmoExporter) (ld : plog.Logs) (env : Env) :
  ∃ lines s0 groups,
    normalized ld env initial = (Ok lines, s0) ∧
    Forall2 (carries m) (requests (trace (pushLogData m ld env initial).2)) groups ∧
    concat groups `prefix_of` lines ∧
    ((pushLogData m ld env initial).1 = Ok () → concat groups = lines).
Proof.
  destruct (convertResources_normalized ld [] env initial)
    as (lines & s0 & Hnorm & Hconv & Htr).
  exists lines, s0. cbn [app] in Hconv.
  unfold pushLogData. rewrite (logDataToMezmo_run m ld env initial s0 lines Hconv).
  destruct (assemble m header 0 lines env (afterGet s0)) as [r s2] eqn:Hasm.
  assert (Hasm' : assemble m (header +:+ Join [] ",") 0 lines env (afterGet s0) = (r, s2)).
  { cbn [Join]. by rewrite app_empty_r. }
  pose proof (assemble_sound m lines [] [] 0%nat env (afterGet s0) s2 r
                ltac:(constructor) ltac:(done) ltac:(done) Hasm')
    as (reqs & groups & Hreqs & Hcars & Hres).
  cbn [afterGet trace] in Hreqs. rewrite Htr in Hreqs. cbn [initial trace requests app] in Hreqs.
  cbn [app] in Hres.
  destruct r as [b|errs].
  - destruct Hres as (last & lastEncs & Hl1 & -> & Hl3 & _).
    rewrite document_closed.
    destruct (sendLinesToMezmo m (document lastEncs false) env s2) as [r3 s3] eqn:Hsend.
    apply sendLinesToMezmo_requests in Hsend as [Hreq Hok]. cbn [fst snd].
    assert (Hcar : carries m (requestFor m (document lastEncs false)) last)
      by (exists lastEncs, false; done).
    assert (Hall : ∃ groups',
      Forall2 (carries m) (requests (trace s2) ++ [requestFor m (document lastEncs false)]) groups'
      ∧ concat groups' = lines).
    { exists (groups ++ [last]). split.
      - rewrite Hreqs. apply Forall2_app; [done|]. by repeat constructor.
      - rewrite concat_app. cbn [concat]. by rewrite app_nil_r. }
    destruct Hreq as [Hreq|[Hreq [e ->]]].
    + destruct Hall as (groups' & Hc & Hcat). exists groups'.
      rewrite Hreq. by rewrite Hcat.
    + exists groups. rewrite Hreq, Hreqs. split_and!; [done|done| |done].
      rewrite <- Hl3. by apply prefix_app_r.
  - exists groups. cbn [fst snd]. rewrite Hreqs. by split_and!.
Qed.

(** When nothing fails, the loop runs to its end. *)
Lemma assemble_completes (m : mezmoExporter) (env : Env) :
  completes env → (∀ doc, compresses m doc) → (∀ l, ∃ e, json_Marshal l = Ok e) →
  ∀ (lines : list mezmoLogLine) (b : string) (i : nat) (s : State),
    ∃ b' s', assemble m b i lines env s = (Ok b', s').
Proof.
  intros Henv Hgz Hjson. induction lines as [|line rest IH]; intros b i s.
  - by eexists _, _.
  - rewrite assemble_cons. cbv zeta.
    destruct (Hjson line) as [e ->].
    destruct (maxBodySize - 2 <=? _); [|apply IH].
    match goal with |- context [sendLinesToMezmo m ?doc env s] =>
      destruct (Henv (exchanges s) (requestFor m doc)) as (res & Hdo & Hclose);
      rewrite (sendLinesToMezmo_completed m doc env s res (Hgz doc) Hdo), Hclose
    end.
    apply IH.
Qed.

(** C4: when the exchange completes, whatever the status of the response,
    the call returns what closing the response body returned, so a status of
    400 or more is no error of its own; for such a status the call logs the
    status, then reads and logs the response body only when the logger is
    enabled at debug level; the body is closed last in every case.  A push
    to an endpoint that answers every request, with whatever status, returns
    no error. *)
Theorem rejection_is_not_an_error (m : mezmoExporter) (env : Env) :
  (∀ (b : string) (s : State) (res : Response),
     compresses m b →
     client_Do env (exchanges s) (requestFor m b) = Ok res →
     ∃ s' logged,
       sendLinesToMezmo m b env s
         = (match CloseResult res with Some err => Fail err | None => Ok () end, s') ∧
       trace s' = trace s ++ [EvDo (requestFor m b)] ++ logged ++ [EvClose res] ∧
       logged =
         if 400 <=? StatusCode res then
           EvLogError ("got http status (" +:+ URL_Path (IngestURL (config m))
                       +:+ "): " +:+ Status res)
           :: (if debugEnabled env
               then [EvReadAll (RespBody res); EvLogDebug "http response" (RespBody res)]
               else [])
         else []) ∧
  (∀ ld : plog.Logs,
     completes env → (∀ doc, compresses m doc) → (∀ l, ∃ e, json_Marshal l = Ok e) →
     (pushLogData m ld env initial).1 = Ok ()).
Proof.
  split.
  - intros b s res Hgz Hdo.
    rewrite (sendLinesToMezmo_completed m b env s res Hgz Hdo).
    eexists _, _. split; [reflexivity|]. cbn [trace]. split; reflexivity.
  - intros ld Henv Hgz Hjson.
    destruct (convertResources_normalized ld [] env initial)
      as (lines & s0 & _ & Hconv & _).
    unfold pushLogData. rewrite (logDataToMezmo_run m ld env initial s0 lines Hconv).
    destruct (assemble_completes m env Henv Hgz Hjson lines header 0%nat (afterGet s0))
      as (b & s2 & ->).
    destruct (Henv (exchanges s2) (requestFor m (b +:+ footer))) as (res & Hdo & Hclose).
    by rewrite (sendLinesToMezmo_completed m _ env s2 res (Hgz _) Hdo), Hclose.
Qed.

(** C8: with compression enabled, a call whose data the compressor accepts
    issues one request, whose body decompresses to the document and which
    carries the header Content-Encoding: gzip; a call whose data the
    compressor refuses returns the compressor's error, wrapped, and issues no
    request.  With compression disabled the body is the document itself. *)
Theorem compressed_body_round_trips (gunzip : string → option string)
    (m : mezmoExporter) (b : string) (env : Env) (s s' : State) (r : result ()) :
  (∀ data, gzip_Write data = None → gunzip (gzip_stream data) = Some data) →
  Compression (config m) = true →
  sendLinesToMezmo m b env s = (r, s') →
  match gzip_Write b with
  | None =>
      ∃ req rest,
        trace s' = trace s ++ EvDo req :: rest ∧ requests rest = [] ∧
        gunzip (ReqBody req) = Some b ∧
        ("Content-Encoding", "gzip") ∈ Header req ∧
        ∀ m0, Compression (config m0) = false → ReqBody (requestFor m0 b) = b
  | Some err =>
      r = Fail (Errorf_wrap "failed to compress log data" err) ∧
      trace s' = trace s
  end.
Proof.
  intros Hgzip Hc Hrun.
  destruct (gzip_Write b) as [err|] eqn:Hgz.
  - rewrite (sendLinesToMezmo_compress_error m b env s err Hc Hgz) in Hrun.
    by injection Hrun as <- <-.
  - assert (compresses m b) as Hok by (intros _; done).
    assert (Hbody : gunzip (ReqBody (requestFor m b)) = Some b).
    { unfold requestFor, payload. cbn [ReqBody]. rewrite Hc. by apply Hgzip. }
    assert (Hhdr : ("Content-Encoding", "gzip") ∈ Header (requestFor m b)).
    { unfold requestFor. cbn [Header]. rewrite Hc.
      apply elem_of_app. right. constructor. }
    assert (Hplain : ∀ m0, Compression (config m0) = false → ReqBody (requestFor m0 b) = b).
    { intros m0 H0. unfold requestFor, payload. cbn [ReqBody]. by rewrite H0. }
    destruct (client_Do env (exchanges s) (requestFor m b)) as [res|errs] eqn:Hdo.
    + rewrite (sendLinesToMezmo_completed m b env s res Hok Hdo) in Hrun.
      injection Hrun as <- <-. cbn [trace].
      exists (requestFor m b), (diagnostics env m res ++ [EvClose res]).
      split_and!; [done| |done..].
      by rewrite requests_app, requests_diagnostics.
    + rewrite (sendLinesToMezmo_transport_error m b env s errs Hok Hdo) in Hrun.
      injection Hrun as <- <-. cbn [trace].
      exists (requestFor m b), []. by split_and!.
Qed.

(** C9: a push of a batch without records issues exactly one request, for
    the document with an empty list of lines; and whenever the loop over the
    lines runs to its end, the buffer it leaves is closed and handed to the
    sender, whatever it holds. *)
Theorem final_document_is_always_sent (m : mezmoExporter) (ld : plog.Logs) (env : Env) :
  (recordsOf ld = [] →
   compresses m (document [] false) →
   requests (trace (pushLogData m ld env initial).2) = [requestFor m (document [] false)]
   ∧ document [] false = "{" +:+ dq +:+ "lines" +:+ dq +:+ ": []}"
   ∧ (Compression (config m) = false →
      ReqBody (requestFor m (document [] false)) = document [] false)) ∧
  (∀ (lines : list mezmoLogLine) (s1 s2 : State) (b : string),
     convertResources ld [] env initial = (Ok lines, s1) →
     assemble m header 0 lines env (afterGet s1) = (Ok b, s2) →
     pushLogData m ld env initial = sendLinesToMezmo m (b +:+ footer) env s2
     ∧ (compresses m (b +:+ footer) →
        requests (trace (pushLogData m ld env initial).2)
        = requests (trace s2) ++ [requestFor m (b +:+ footer)])).
Proof.
  assert (Hsent : ∀ doc s, compresses m doc →
            requests (trace (sendLinesToMezmo m doc env s).2)
            = requests (trace s) ++ [requestFor m doc]).
  { intros doc s Hgz.
    destruct (client_Do env (exchanges s) (requestFor m doc)) as [res|errs] eqn:Hdo.
    - rewrite (sendLinesToMezmo_completed m doc env s res Hgz Hdo). cbn [snd trace].
      rewrite requests_app. cbn [requests app].
      by rewrite requests_app, requests_diagnostics.
    - rewrite (sendLinesToMezmo_transport_error m doc env s errs Hgz Hdo). cbn [snd trace].
      by rewrite requests_app. }
  split.
  - intros Hempty Hgz.
    destruct (convertResources_normalized ld [] env initial)
      as (lines & s0 & Hnorm & Hconv & Htr).
    unfold normalized in Hnorm. rewrite Hempty in Hnorm. cbn in Hnorm.
    injection Hnorm as <- <-. cbn [app] in Hconv.
    unfold pushLogData. rewrite (logDataToMezmo_run m ld env initial initial [] Hconv).
    cbn [assemble]. unfold mret, M_ret.
    change (header +:+ footer) with (document [] false) in *.
    rewrite (Hsent _ _ Hgz). split_and!; [done|reflexivity|].
    intros Hc. unfold requestFor, payload. cbn [ReqBody]. by rewrite Hc.
  - intros lines s1 s2 b Hconv Hasm. unfold pushLogData.
    rewrite (logDataToMezmo_run m ld env initial s1 lines Hconv), Hasm.
    split; [done|]. intros Hgz. by apply Hsent.
Qed.

(** When nothing fails, the requests of the loop and of the final send are
    those of the plan. *)
Lemma assemble_plan (m : mezmoExporter) (env : Env) :
  completes env → (∀ doc, compresses m doc) →
  ∀ (lines : list mezmoLogLine) (encs : list string) (b : string) (i : nat) (s : State),
    encodings lines encs →
    ∃ b' s',
      assemble m b i lines env s = (Ok b', s') ∧
      requests (trace s') ++ [requestFor m (b' +:+ footer)]
      = requests (trace s) ++ map (requestFor m) (plan b i encs).
Proof.
  intros Henv Hgz. induction lines as [|line rest IH]; intros encs b i s Henc.
  - apply Forall2_nil_inv_l in Henc as ->. by eexists _, _.
  - apply Forall2_cons_inv_l in Henc as (e & encs' & He & Henc & ->).
    rewrite assemble_cons. cbn [plan]. cbv zeta. rewrite He.
    destruct (maxBodySize - 2 <=? _).
    + match goal with |- context [sendLinesToMezmo m ?doc env s] =>
        destruct (Henv (exchanges s) (requestFor m doc)) as (res & Hdo & Hclose);
        rewrite (sendLinesToMezmo_completed m doc env s res (Hgz doc) Hdo), Hclose
      end.
      match goal with |- context [assemble m ?b1 (S i) rest env ?s1] =>
        destruct (IH encs' b1 (S i) s1 Henc) as (b' & s' & Hrun & Hreq)
      end.
      exists b', s'. split; [done|]. rewrite Hreq. cbn [trace map].
      simpl_requests. by rewrite <- app_assoc.
    + by apply IH.
Qed.

Lemma push_plan (m : mezmoExporter) (ld : plog.Logs) (env : Env)
    (lines : list mezmoLogLine) (encs : list string) (s0 : State) :
  completes env → (∀ doc, compresses m doc) →
  convertResources ld [] env initial = (Ok lines, s0) →
  encodings lines encs →
  requests (trace (pushLogData m ld env initial).2)
  = map (requestFor m) (plan header 0 encs).
Proof.
  intros Henv Hgz Hconv Henc.
  destruct (convertResources_normalized ld [] env initial)
    as (lines' & s0' & _ & Hconv' & Htr).
  rewrite Hconv in Hconv'. injection Hconv' as <- <-.
  unfold pushLogData. rewrite (logDataToMezmo_run m ld env initial s0 lines Hconv).
  destruct (assemble_plan m env Henv Hgz lines encs header 0%nat (afterGet s0) Henc)
    as (b & s2 & -> & Hreq).
  cbn [afterGet trace] in Hreq. rewrite Htr in Hreq. cbn [initial trace requests app] in Hreq.
  destruct (Henv (exchanges s2) (requestFor m (b +:+ footer))) as (res & Hdo & Hclose).
  rewrite (sendLinesToMezmo_completed m _ env s2 res (Hgz _) Hdo). cbn [snd trace].
  simpl_requests. exact Hreq.
Qed.

(** *** Further properties of the assembler and the normaliser *)

Lemma plan_bounded (encs : list string) :
  ∀ (b : string) (i : nat),
    len b < maxBodySize - 2 →
    Forall (λ e, len e < maxBodySize - 13) encs →
    Forall (λ doc, len doc <= maxBodySize) (plan b i encs).
Proof.
  induction encs as [|e rest IH]; intros b i Hb Hall.
  - cbn [plan]. constructor; [|constructor].
    rewrite len_app. change (len footer) with 2. lia.
  - apply Forall_cons in Hall as [He Hrest].
    cbn [plan]. cbv zeta.
    assert (Hb1 : len (if (0 <? i)%nat then b +:+ "," else b) <= maxBodySize - 2).
    { destruct (0 <? i)%nat; [rewrite len_app; change (len ",") with 1|]; lia. }
    destruct (maxBodySize - 2 <=? _) eqn:Hflush.
    + constructor.
      * rewrite len_app. change (len footer) with 2. lia.
      * apply IH; [|done]. rewrite len_app. change (len header) with 11. lia.
    + apply Z.leb_gt in Hflush. apply IH; [|done]. rewrite len_app. lia.
Qed.

(** Size bound, as far as it holds: when [maxBodySize] is 14 or more, every
    line encodes to fewer than [maxBodySize - 13] bytes and nothing fails,
    the document of every request of a push has at most [maxBodySize]
    bytes. *)
Theorem bodies_within_maxBodySize (m : mezmoExporter) (ld : plog.Logs) (env : Env)
    (lines : list mezmoLogLine) (encs : list string) (s0 : State) :
  14 <= maxBodySize →
  completes env → (∀ doc, compresses m doc) →
  normalized ld env initial = (Ok lines, s0) →
  encodings lines encs →
  Forall (λ e, len e < maxBodySize - 13) encs →
  ∃ docs,
    requests (trace (pushLogData m ld env initial).2) = map (requestFor m) docs ∧
    Forall (λ doc, len doc <= maxBodySize) docs.
Proof.
  intros HM Henv Hgz Hnorm Henc Hsmall.
  destruct (convertResources_normalized ld [] env initial)
    as (lines' & s0' & Hnorm' & Hconv & _).
  rewrite Hnorm in Hnorm'. injection Hnorm' as <- <-. cbn [app] in Hconv.
  exists (plan header 0 encs). split.
  - by apply (push_plan m ld env lines encs s0).
  - apply plan_bounded; [|done]. change (len header) with 11. lia.
Qed.

(** A trace identifier of 16 bytes that is not all zero appears in the meta
    mapping as 32 lowercase hexadecimal digits, unless the record has an
    attribute of that name. *)
Theorem trace_id_is_32_hex_digits (h : bool) (host : pcommon.Value)
    (log : plog.LogRecord) (env : Env) (s : State) :
  length (plog.TraceID log) = 16%nat →
  pcommon.IsEmpty (plog.TraceID log) = false →
  lastValue (plog.Attributes log) "trace.id" = None →
  ∃ line s' v,
    recordToLine h host log env s = (Ok line, s') ∧
    Meta line !! "trace.id" = Some v ∧
    String.length v = 32%nat ∧ allChars lowerHex v = true.
Proof.
  intros Hlen Hne Hnone.
  destruct (recordToLine_fields h host log env s) as (line & s' & Hrun & _ & _ & Hmeta).
  exists line, s', (hex.EncodeToString (plog.TraceID log)). split_and!.
  - done.
  - rewrite Hmeta, Hnone. unfold resourceDerived. cbn. by rewrite Hne.
  - by rewrite EncodeToString_length, Hlen.
  - apply EncodeToString_lowerHex.
Qed.

(** When the endpoint cannot be reached, the loop either ends without having
    sent anything or stops at its first flush. *)
Lemma assemble_unreachable (m : mezmoExporter) (env : Env) :
  unreachable env → (∀ doc, compresses m doc) →
  ∀ (lines : list mezmoLogLine) (b : string) (i : nat) (s : State),
    ∃ r s', assemble m b i lines env s = (r, s') ∧
      ((∃ b', r = Ok b' ∧ requests (trace s') = requests (trace s))
       ∨ (∃ errs, r = Fail errs ∧ length (requests (trace s')) <= length (requests (trace s)) + 1)%nat).
Proof.
  intros Henv Hgz. induction lines as [|line rest IH]; intros b i s.
  - eexists _, _. split; [reflexivity|]. left. by eexists.
  - rewrite assemble_cons. cbv zeta.
    destruct (json_Marshal line) as [e|errs].
    2:{ eexists _, _. split; [reflexivity|]. right. eexists. split; [done|]. lia. }
    destruct (maxBodySize - 2 <=? _); [|apply IH].
    match goal with |- context [sendLinesToMezmo m ?doc env s] =>
      destruct (Henv (exchanges s) (requestFor m doc)) as (errs & Hdo);
      rewrite (sendLinesToMezmo_transport_error m doc env s errs (Hgz doc) Hdo)
    end.
    eexists _, _. split; [reflexivity|]. right. eexists. split; [done|].
    cbn [trace]. simpl_requests. rewrite length_app. cbn [length]. lia.
Qed.

(** The first send failure ends the push: against an endpoint that cannot be
    reached a push returns an error after at most one request. *)
Theorem unreachable_endpoint_fails_the_push (m : mezmoExporter) (ld : plog.Logs) (env : Env) :
  unreachable env → (∀ doc, compresses m doc) →
  (∃ errs, (pushLogData m ld env initial).1 = Fail errs) ∧
  (length (requests (trace (pushLogData m ld env initial).2)) <= 1)%nat.
Proof.
  intros Henv Hgz.
  destruct (convertResources_normalized ld [] env initial)
    as (lines & s0 & _ & Hconv & Htr).
  cbn [app] in Hconv.
  unfold pushLogData. rewrite (logDataToMezmo_run m ld env initial s0 lines Hconv).
  destruct (assemble_unreachable m env Henv Hgz lines header 0%nat (afterGet s0))
    as (r & s2 & -> & Hcase).
  cbn [afterGet trace] in Hcase. rewrite Htr in Hcase. cbn [initial trace requests length] in Hcase.
  destruct Hcase as [(b' & -> & Hreq)|(errs & -> & Hreq)].
  - destruct (Henv (exchanges s2) (requestFor m (b' +:+ footer))) as (errs & Hdo).
    rewrite (sendLinesToMezmo_transport_error m _ env s2 errs (Hgz _) Hdo).
    cbn [fst snd trace]. split; [by eexists|].
    simpl_requests. rewrite Hreq. cbn [app length]. lia.
  - cbn [fst snd]. split; [by eexists|]. lia.
Qed.

(** *** What every push keeps *)

Lemma forEach_preserves {A B} (f : A → M B) (Q : State → State → Prop) :
  (∀ s, Q s s) → (∀ s1 s2 s3, Q s1 s2 → Q s2 s3 → Q s1 s3) →
  (∀ x env s, Q s (f x env s).2) →
  ∀ (l : list A) (env : Env) (s : State), Q s (forEach f l env s).2.
Proof.
  intros Hrefl Htrans Hf. induction l as [|x l IH]; intros env s; [apply Hrefl|].
  cbn [forEach]. unfold mbind, M_bind, mret, M_ret.
  pose proof (Hf x env s) as H1.
  destruct (f x env s) as [[y|e] s1]; [|exact H1]. cbn [snd] in H1.
  pose proof (IH env s1) as H2.
  destruct (forEach f l env s1) as [[ys|e] s2]; cbn [snd] in *; by eapply Htrans.
Qed.

(** Normalising records issues no request. *)
Lemma convertResources_exchanges (ld : plog.Logs) (env : Env) (s s' : State)
    (lines : list mezmoLogLine) :
  convertResources ld [] env s = (Ok lines, s') →
  trace s' = trace s ∧ exchanges s' = exchanges s.
Proof.
  intros Hconv.
  destruct (convertResources_normalized ld [] env s) as (ls & s1 & Hnorm & Hconv' & Htr).
  rewrite Hconv in Hconv'. injection Hconv' as _ <-. split; [done|].
  pose proof (forEach_preserves (λ r, recordToLine r.1.2 r.1.1 r.2)
                (λ s1 s2, exchanges s2 = exchanges s1)) as Hpres.
  unfold normalized in Hnorm.
  specialize (Hpres ltac:(done) ltac:(intros s1' s2' s3' H1 H2; congruence)).
  assert (Hrec : ∀ x env0 s0, exchanges (recordToLine x.1.2 x.1.1 x.2 env0 s0).2 = exchanges s0).
  { intros x env0 s0. destruct (recordToLine_run x.1.2 x.1.1 x.2 env0 s0) as [line ->].
    cbn [snd]. by destruct (_ =? 0). }
  specialize (Hpres Hrec (recordsOf ld) env s). by rewrite Hnorm in Hpres.
Qed.

(** A property of the requests issued and of the trace that every call of
    [sendLinesToMezmo] keeps is kept by the loop. *)
Lemma assemble_preserves (P : State → Prop) (m : mezmoExporter) (env : Env) :
  (∀ doc s, P s → P (sendLinesToMezmo m doc env s).2) →
  ∀ (lines : list mezmoLogLine) (b : string) (i : nat) (s : State),
    P s → P (assemble m b i lines env s).2.
Proof.
  intros Hsend. induction lines as [|line rest IH]; intros b i s Hs; [done|].
  rewrite assemble_cons. cbv zeta.
  destruct (json_Marshal line) as [e|errs]; [|done].
  destruct (maxBodySize - 2 <=? _); [|by apply IH].
  match goal with |- context [sendLinesToMezmo m ?doc env s] =>
    pose proof (Hsend doc s Hs) as H1;
    destruct (sendLinesToMezmo m doc env s) as [[[]|errs] s1]
  end; cbn [snd] in H1; [by apply IH|done].
Qed.

(** ... and by a whole push. *)
Lemma push_preserves (P : State → Prop) (m : mezmoExporter) (ld : plog.Logs) (env : Env) :
  (∀ s1 s2, trace s1 = trace s2 → exchanges s1 = exchanges s2 → P s1 → P s2) →
  (∀ doc s, P s → P (sendLinesToMezmo m doc env s).2) →
  P initial → P (pushLogData m ld env initial).2.
Proof.
  intros Hframe Hsend Hinit.
  destruct (convertResources_normalized ld [] env initial)
    as (lines & s0 & _ & Hconv & _).
  cbn [app] in Hconv.
  destruct (convertResources_exchanges ld env initial s0 lines Hconv) as [Htr Hex].
  unfold pushLogData. rewrite (logDataToMezmo_run m ld env initial s0 lines Hconv).
  assert (H0 : P (afterGet s0)) by (apply (Hframe initial); done).
  pose proof (assemble_preserves P m env Hsend lines header 0%nat (afterGet s0) H0) as H1.
  destruct (assemble m header 0 lines env (afterGet s0)) as [[b|errs] s2]; cbn [snd] in H1.
  - by apply Hsend.
  - done.
Qed.

(** Every request of a push is the one built for some document. *)
Lemma push_requests_built (m : mezmoExporter) (ld : plog.Logs) (env : Env) :
  Forall (λ req, ∃ doc, req = requestFor m doc)
    (requests (trace (pushLogData m ld env initial).2)).
Proof.
  apply (push_preserves (λ s, Forall (λ req, ∃ doc, req = requestFor m doc)
                                (requests (trace s)))).
  - by intros s1 s2 -> _.
  - intros doc s Hs.
    destruct (sendLinesToMezmo m doc env s) as [r s'] eqn:Hrun.
    apply sendLinesToMezmo_requests in Hrun as [[Hreq|[Hreq _]] _]; cbn [snd]; rewrite Hreq.
    + apply Forall_app. split; [done|]. constructor; [by eexists|constructor].
    + done.
  - constructor.
Qed.

(** Every request of a push is a POST to the ingest URL of the
    configuration.  Its header map holds, each with one value, Accept and
    Content-Type, the User-Agent naming the exporter and the build it was
    made for, the ingest key under Apikey (the canonical form of the key the
    source writes), and Content-Encoding exactly when compression is enabled;
    it holds nothing else. *)
Theorem every_request_is_an_authenticated_post (cfg : Config) (version : string)
    (ld : plog.Logs) (env : Env) (req : Request) :
  req ∈ requests (trace (pushLogData (newLogsExporter cfg version) ld env initial).2) →
  Method req = "POST" ∧
  URL req = IngestURL cfg ∧
  http.headerOf (Header req)
  = {[ "Accept" := ["application/json"];
       "Content-Type" := ["application/json"];
       "User-Agent" := ["mezmo-otel-exporter/" +:+ version];
       "Apikey" := [IngestKey cfg] ]}
    ∪ (if Compression cfg then {[ "Content-Encoding" := ["gzip"] ]} else ∅).
Proof.
  intros Hin.
  pose proof (push_requests_built (newLogsExporter cfg version) ld env) as Hall.
  rewrite Forall_forall in Hall. destruct (Hall req Hin) as [doc ->].
  split_and!; [done|done|].
  cbn [requestFor Header newLogsExporter config userAgentString].
  destruct (Compression cfg); vm_compute; reflexivity.
Qed.

(** With compression enabled and a compressor that refuses every document,
    a push issues no request at all and returns an error. *)
Theorem refusing_compressor_sends_nothing (m : mezmoExporter) (ld : plog.Logs) (env : Env) :
  Compression (config m) = true →
  (∀ doc, ∃ err, gzip_Write doc = Some err) →
  requests (trace (pushLogData m ld env initial).2) = []
  ∧ ∃ errs, (pushLogData m ld env initial).1 = Fail errs.
Proof.
  intros Hc Hgz. split.
  - apply (push_preserves (λ s, requests (trace s) = [])).
    + by intros s1 s2 -> _.
    + intros doc s Hs. destruct (Hgz doc) as [err Herr].
      by rewrite (sendLinesToMezmo_compress_error m doc env s err Hc Herr).
    + done.
  - destruct (convertResources_normalized ld [] env initial)
      as (lines & s0 & _ & Hconv & _).
    cbn [app] in Hconv.
    unfold pushLogData. rewrite (logDataToMezmo_run m ld env initial s0 lines Hconv).
    destruct (assemble m header 0 lines env (afterGet s0)) as [[b|errs] s2].
    + destruct (Hgz (b +:+ footer)) as [err Herr].
      rewrite (sendLinesToMezmo_compress_error m _ env s2 err Hc Herr). by eexists.
    + by eexists.
Qed.

Lemma closed_app (t u : list Event) : closed (t ++ u) = closed t ++ closed u.
Proof.
  induction t as [|ev t IH]; [done|].
  destruct ev; cbn [app closed]; by rewrite ?IH.
Qed.

Lemma closed_diagnostics (env : Env) (m : mezmoExporter) (res : Response) :
  closed (diagnostics env m res) = [].
Proof.
  unfold diagnostics. destruct (400 <=? StatusCode res); [|done].
  by destruct (debugEnabled env).
Qed.

Ltac simpl_closed :=
  repeat first
    [ rewrite closed_app
    | rewrite closed_diagnostics
    | progress cbn [closed app] ].

Lemma received_snoc (env : Env) (reqs : list Request) (req : Request) :
  ∀ n : nat,
    received env n (reqs ++ [req])
    = received env n reqs
      ++ match client_Do env (n + length reqs) req with
         | Ok res => [res]
         | Fail _ => []
         end.
Proof.
  induction reqs as [|r reqs IH]; intros n.
  - cbn [app received length]. rewrite Nat.add_0_r.
    by destruct (client_Do env n req).
  - cbn [app received length]. rewrite IH.
    replace (S n + length reqs)%nat with (n + S (length reqs))%nat by lia.
    by destruct (client_Do env n r).
Qed.

(** No response is left open and none is closed twice: the bodies a push
    has closed when it returns are, in order, exactly the responses its
    client returned, whatever their status and whatever fails. *)
Theorem every_response_is_closed_once (m : mezmoExporter) (ld : plog.Logs) (env : Env) :
  closed (trace (pushLogData m ld env initial).2)
  = received env 0 (requests (trace (pushLogData m ld env initial).2)).
Proof.
  refine (proj2 (push_preserves
           (λ s, exchanges s = length (requests (trace s))
                 ∧ closed (trace s) = received env 0 (requests (trace s)))
           m ld env _ _ _)).
  - intros s1 s2 Htr Hex [H1 H2]. by rewrite <- Htr, <- Hex.
  - intros doc s [Hex Hcl].
    destruct (Compression (config m)) eqn:Hc;
      [destruct (gzip_Write doc) as [err|] eqn:Hgz|].
    + by rewrite (sendLinesToMezmo_compress_error m doc env s err Hc Hgz).
    + assert (compresses m doc) as Hok by (intros _; done).
      destruct (client_Do env (exchanges s) (requestFor m doc)) as [res|errs] eqn:Hdo.
      * rewrite (sendLinesToMezmo_completed m doc env s res Hok Hdo). cbn [snd trace exchanges].
        simpl_requests. simpl_closed. rewrite received_snoc.
        cbn [plus]. rewrite <- Hex, Hdo, Hcl, length_app. cbn [length].
        split; [lia|done].
      * rewrite (sendLinesToMezmo_transport_error m doc env s errs Hok Hdo).
        cbn [snd trace exchanges].
        simpl_requests. simpl_closed. rewrite received_snoc.
        cbn [plus]. rewrite <- Hex, Hdo, Hcl, length_app, ?app_nil_r.
        cbn [length]. split; [lia|done].
    + assert (compresses m doc) as Hok by (intros Hc'; congruence).
      destruct (client_Do env (exchanges s) (requestFor m doc)) as [res|errs] eqn:Hdo.
      * rewrite (sendLinesToMezmo_completed m doc env s res Hok Hdo). cbn [snd trace exchanges].
        simpl_requests. simpl_closed. rewrite received_snoc.
        cbn [plus]. rewrite <- Hex, Hdo, Hcl, length_app. cbn [length].
        split; [lia|done].
      * rewrite (sendLinesToMezmo_transport_error m doc env s errs Hok Hdo).
        cbn [snd trace exchanges].
        simpl_requests. simpl_closed. rewrite received_snoc.
        cbn [plus]. rewrite <- Hex, Hdo, Hcl, length_app, ?app_nil_r.
        cbn [length]. split; [lia|done].
  - done.
Qed.

(** *** The buffer pool *)

Lemma recordToLine_pool (h : bool) (host : pcommon.Value) (log : plog.LogRecord)
    (env : Env) (buffers : nat → string) (s : State) :
  recordToLine h host log (withPool env buffers) s = recordToLine h host log env s.
Proof.
  unfold recordToLine, mbind, M_bind, mret, M_ret, time_Now_UnixMilli.
  by destruct (time.UnixMilli (time.AsTime (plog.Timestamp log)) =? 0).
Qed.

Lemma convertRecords_pool (h : bool) (host : pcommon.Value) (env : Env)
    (buffers : nat → string) (logs : list plog.LogRecord) :
  ∀ (acc : list mezmoLogLine) (s : State),
    convertRecords h host logs acc (withPool env buffers) s
    = convertRecords h host logs acc env s.
Proof.
  induction logs as [|log rest IH]; intros acc s; [done|].
  cbn [convertRecords]. unfold mbind, M_bind. rewrite recordToLine_pool.
  destruct (recordToLine h host log env s) as [[line|e] s1]; [apply IH|done].
Qed.

Lemma convertScopes_pool (h : bool) (host : pcommon.Value) (env : Env)
    (buffers : nat → string) (scopes : list plog.ScopeLogs) :
  ∀ (acc : list mezmoLogLine) (s : State),
    convertScopes h host scopes acc (withPool env buffers) s
    = convertScopes h host scopes acc env s.
Proof.
  induction scopes as [|sl rest IH]; intros acc s; [done|].
  cbn [convertScopes]. unfold mbind, M_bind. rewrite convertRecords_pool.
  destruct (convertRecords h host (plog.LogRecords sl) acc env s) as [[ls|e] s1];
    [apply IH|done].
Qed.

Lemma convertResources_pool (env : Env) (buffers : nat → string) (ld : plog.Logs) :
  ∀ (acc : list mezmoLogLine) (s : State),
    convertResources ld acc (withPool env buffers) s = convertResources ld acc env s.
Proof.
  induction ld as [|rl rest IH]; intros acc s; [done|].
  cbn [convertResources].
  destruct (pcommon.Get (plog.Resource rl) "host.name") as [host has].
  unfold mbind, M_bind. rewrite convertScopes_pool.
  destruct (convertScopes has host (plog.ScopeLogsSlice rl) acc env s) as [[ls|e] s1];
    [apply IH|done].
Qed.

Lemma sendLinesToMezmo_pool (m : mezmoExporter) (b : string) (env : Env)
    (buffers : nat → string) (s : State) :
  sendLinesToMezmo m b (withPool env buffers) s = sendLinesToMezmo m b env s.
Proof.
  assert (Hcases : (∃ err, Compression (config m) = true ∧ gzip_Write b = Some err)
                   ∨ compresses m b).
  { unfold compresses. destruct (Compression (config m)); [|by right].
    destruct (gzip_Write b) as [err|]; [left; by eexists|by right]. }
  destruct Hcases as [(err & Hc & Hgz)|Hok].
  - by rewrite !(sendLinesToMezmo_compress_error m b _ s err Hc Hgz).
  - destruct (client_Do env (exchanges s) (requestFor m b)) as [res|errs] eqn:Hdo.
    + rewrite (sendLinesToMezmo_completed m b (withPool env buffers) s res Hok Hdo).
      by rewrite (sendLinesToMezmo_completed m b env s res Hok Hdo).
    + rewrite (sendLinesToMezmo_transport_error m b (withPool env buffers) s errs Hok Hdo).
      by rewrite (sendLinesToMezmo_transport_error m b env s errs Hok Hdo).
Qed.

Lemma assemble_pool (m : mezmoExporter) (env : Env) (buffers : nat → string)
    (lines : list mezmoLogLine) :
  ∀ (b : string) (i : nat) (s : State),
    assemble m b i lines (withPool env buffers) s = assemble m b i lines env s.
Proof.
  induction lines as [|line rest IH]; intros b i s; [done|].
  rewrite !assemble_cons. cbv zeta.
  destruct (json_Marshal line) as [e|errs]; [|done].
  destruct (maxBodySize - 2 <=? _); [|apply IH].
  rewrite sendLinesToMezmo_pool.
  by destruct (sendLinesToMezmo m _ env s) as [[[]|errs] s1].
Qed.

(** What a pooled buffer held before, be it the zero bytes of a new buffer
    or an earlier document, has no part in a push: its result, the requests
    and everything else it does are the same whatever the pool hands out. *)
Theorem stale_buffer_bytes_never_leak (m : mezmoExporter) (ld : plog.Logs) (env : Env)
    (buffers : nat → string) :
  pushLogData m ld (withPool env buffers) initial = pushLogData m ld env initial.
Proof.
  unfold pushLogData, logDataToMezmo, mbind, M_bind, bytesPool_Get.
  rewrite convertResources_pool.
  destruct (convertResources ld [] env initial) as [[lines|e] s0]; [|done].
  unfold Buffer.WriteString, Buffer.Reset. rewrite !app_empty_l, assemble_pool.
  destruct (assemble m header 0 lines env _) as [[b|e] s2]; [|done].
  apply sendLinesToMezmo_pool.
Qed.

(** *** How many requests *)

Lemma forEach_length {A B} (f : A → M B) (l : list A) :
  ∀ (env : Env) (s s' : State) (ys : list B),
    forEach f l env s = (Ok ys, s') → length ys = length l.
Proof.
  induction l as [|x l IH]; intros env s s' ys Hrun.
  - cbn in Hrun. by injection Hrun as <- _.
  - cbn [forEach] in Hrun. unfold mbind, M_bind, mret, M_ret in Hrun.
    destruct (f x env s) as [[y|e] s1]; [|done].
    destruct (forEach f l env s1) as [[ys'|e] s2] eqn:Hrest; [|done].
    injection Hrun as <- _. cbn [length]. by rewrite (IH env s1 s2 ys' Hrest).
Qed.

Lemma assemble_request_count (m : mezmoExporter) (env : Env) (lines : list mezmoLogLine) :
  ∀ (b : string) (i : nat) (s : State),
    (length (requests (trace (assemble m b i lines env s).2))
     <= length (requests (trace s)) + length lines)%nat.
Proof.
  induction lines as [|line rest IH]; intros b i s; [cbn; lia|].
  rewrite assemble_cons. cbv zeta. cbn [length].
  destruct (json_Marshal line) as [e|errs]; [|cbn [snd]; lia].
  destruct (maxBodySize - 2 <=? _).
  - match goal with |- context [sendLinesToMezmo m ?doc env s] =>
      destruct (sendLinesToMezmo m doc env s) as [r s1] eqn:Hrun
    end.
    assert (Hs1 : (length (requests (trace s1)) <= length (requests (trace s)) + 1)%nat).
    { apply sendLinesToMezmo_requests in Hrun as [[Hreq|[Hreq _]] _]; rewrite Hreq;
        [rewrite length_app; cbn [length]|]; lia. }
    destruct r as [[]|errs]; [|cbn [snd]; lia].
    specialize (IH (header +:+ e) (S i) s1). lia.
  - specialize (IH ((if (0 <? i)%nat then b +:+ "," else b) +:+ e) (S i) s). lia.
Qed.

(** A push never issues more requests than the batch has records, plus one,
    whatever fails; and a push that returns no error has issued at least
    one. *)
Theorem push_request_count (m : mezmoExporter) (ld : plog.Logs) (env : Env) :
  (length (requests (trace (pushLogData m ld env initial).2))
   <= length (recordsOf ld) + 1)%nat
  ∧ ((pushLogData m ld env initial).1 = Ok () →
     (1 <= length (requests (trace (pushLogData m ld env initial).2)))%nat).
Proof.
  destruct (convertResources_normalized ld [] env initial)
    as (lines & s0 & Hnorm & Hconv & Htr).
  cbn [app] in Hconv. unfold normalized in Hnorm. apply forEach_length in Hnorm.
  unfold pushLogData. rewrite (logDataToMezmo_run m ld env initial s0 lines Hconv).
  pose proof (assemble_request_count m env lines header 0%nat (afterGet s0)) as Hcount.
  cbn [afterGet trace] in Hcount. rewrite Htr in Hcount.
  cbn [initial trace requests length] in Hcount.
  destruct (assemble m header 0 lines env (afterGet s0)) as [[b|errs] s2]; cbn [snd] in Hcount.
  - destruct (sendLinesToMezmo m (b +:+ footer) env s2) as [r s3] eqn:Hrun.
    apply sendLinesToMezmo_requests in Hrun as [Hreq Hok]. cbn [fst snd]. split.
    + destruct Hreq as [Hreq|[Hreq _]]; rewrite Hreq;
        [rewrite length_app; cbn [length]|]; lia.
    + intros ->. rewrite (Hok eq_refl), length_app. cbn [length]. lia.
  - cbn [fst snd]. split; [lia|done].
Qed.

(** *** A line that cannot be encoded *)

Lemma assemble_marshal_error (m : mezmoExporter) (env : Env) (bad : mezmoLogLine)
    (rest : list mezmoLogLine) (errs : error) :
  completes env → (∀ doc, compresses m doc) →
  json_Marshal bad = Fail errs →
  ∀ (good : list mezmoLogLine) (encs : list string) (b : string) (i : nat) (s : State),
    encodings good encs →
    ∃ s' final,
      assemble m b i (good ++ bad :: rest) env s
        = (Fail (Errorf_wrap "error Creating JSON payload" errs), s') ∧
      requests (trace s') ++ [final]
      = requests (trace s) ++ map (requestFor m) (plan b i encs).
Proof.
  intros Henv Hgz Hbad. induction good as [|line good IH]; intros encs b i s Henc.
  - apply Forall2_nil_inv_l in Henc as ->. cbn [app].
    rewrite assemble_cons. cbv zeta. rewrite Hbad.
    by eexists _, _.
  - apply Forall2_cons_inv_l in Henc as (e & encs' & He & Henc & ->).
    cbn [app]. rewrite assemble_cons. cbn [plan]. cbv zeta. rewrite He.
    destruct (maxBodySize - 2 <=? _).
    + match goal with |- context [sendLinesToMezmo m ?doc env s] =>
        destruct (Henv (exchanges s) (requestFor m doc)) as (res & Hdo & Hclose);
        rewrite (sendLinesToMezmo_completed m doc env s res (Hgz doc) Hdo), Hclose
      end.
      match goal with |- context [assemble m ?b1 (S i) _ env ?s1] =>
        destruct (IH encs' b1 (S i) s1 Henc) as (s' & final & Hrun & Hreq)
      end.
      exists s', final. split; [done|]. rewrite Hreq. cbn [trace map].
      simpl_requests. by rewrite <- app_assoc.
    + by apply IH.
Qed.

(** When a line cannot be encoded, the push returns the encoder's error,
    wrapped; the documents that filled up before that line have been sent,
    the document being assembled is not, and the lines after it are not
    looked at. *)
Theorem encoding_error_ends_the_push (m : mezmoExporter) (ld : plog.Logs) (env : Env)
    (good rest : list mezmoLogLine) (bad : mezmoLogLine) (encs : list string)
    (errs : error) (s0 : State) :
  completes env → (∀ doc, compresses m doc) →
  normalized ld env initial = (Ok (good ++ bad :: rest), s0) →
  encodings good encs →
  json_Marshal bad = Fail errs →
  (pushLogData m ld env initial).1 = Fail (Errorf_wrap "error Creating JSON payload" errs)
  ∧ ∃ unsent,
      map (requestFor m) (plan header 0 encs)
      = requests (trace (pushLogData m ld env initial).2) ++ [unsent].
Proof.
  intros Henv Hgz Hnorm Henc Hbad.
  destruct (convertResources_normalized ld [] env initial)
    as (lines & s1 & Hnorm' & Hconv & Htr).
  rewrite Hnorm in Hnorm'. injection Hnorm' as <- <-. cbn [app] in Hconv.
  unfold pushLogData. rewrite (logDataToMezmo_run m ld env initial s0 _ Hconv).
  destruct (assemble_marshal_error m env bad rest errs Henv Hgz Hbad good encs header 0%nat
              (afterGet s0) Henc) as (s' & final & -> & Hreq).
  cbn [afterGet trace] in Hreq. rewrite Htr in Hreq. cbn [initial trace requests app] in Hreq.
  cbn [fst snd]. split; [done|]. by exists final.
Qed.

(** *** A push that meets no failure *)

Lemma push_completes (m : mezmoExporter) (ld : plog.Logs) (env : Env) :
  completes env → (∀ doc, compresses m doc) → (∀ l, ∃ e, json_Marshal l = Ok e) →
  (pushLogData m ld env initial).1 = Ok ().
Proof.
  intros Henv Hgz Hjson.
  destruct (convertResources_normalized ld [] env initial)
    as (lines & s0 & _ & Hconv & _).
  unfold pushLogData. rewrite (logDataToMezmo_run m ld env initial s0 lines Hconv).
  destruct (assemble_completes m env Henv Hgz Hjson lines header 0%nat (afterGet s0))
    as (b & s2 & ->).
  destruct (Henv (exchanges s2) (requestFor m (b +:+ footer))) as (res & Hdo & Hclose).
  by rewrite (sendLinesToMezmo_completed m _ env s2 res (Hgz _) Hdo), Hclose.
Qed.

(** *** What is logged and what is read *)

Lemma logged_app (t u : list Event) : logged (t ++ u) = logged t ++ logged u.
Proof.
  induction t as [|ev t IH]; [done|].
  destruct ev; cbn [app logged]; by rewrite ?IH.
Qed.

Lemma bodiesRead_app (t u : list Event) : bodiesRead (t ++ u) = bodiesRead t ++ bodiesRead u.
Proof.
  induction t as [|ev t IH]; [done|].
  destruct ev; cbn [app bodiesRead]; by rewrite ?IH.
Qed.

Lemma sendLinesToMezmo_trace (m : mezmoExporter) (doc : string) (env : Env) (s : State) :
  trace (sendLinesToMezmo m doc env s).2 = trace s
  ∨ trace (sendLinesToMezmo m doc env s).2 = trace s ++ [EvDo (requestFor m doc)]
  ∨ ∃ res, trace (sendLinesToMezmo m doc env s).2
           = trace s ++ [EvDo (requestFor m doc)] ++ diagnostics env m res ++ [EvClose res].
Proof.
  assert ((∃ err, Compression (config m) = true ∧ gzip_Write doc = Some err)
          ∨ compresses m doc) as [(err & Hc & Hgz)|Hok].
  { unfold compresses. destruct (Compression (config m)); [|right; done].
    destruct (gzip_Write doc) as [err|]; [left; by exists err|right; done]. }
  - left. by rewrite (sendLinesToMezmo_compress_error m doc env s err Hc Hgz).
  - right. destruct (client_Do env (exchanges s) (requestFor m doc)) as [res|errs] eqn:Hdo.
    + right. exists res. by rewrite (sendLinesToMezmo_completed m doc env s res Hok Hdo).
    + left. by rewrite (sendLinesToMezmo_transport_error m doc env s errs Hok Hdo).
Qed.

(** A push logs an error for each response with a status of 400 or more,
    naming the path of the ingest URL and the status text, and for no other
    response; it reads the body of a response only if the status is 400 or
    more and the logger is enabled at debug level. *)
Theorem only_rejections_are_logged (m : mezmoExporter) (ld : plog.Logs) (env : Env) :
  ∃ rs : list Response,
    rs = List.filter rejected (closed (trace (pushLogData m ld env initial).2)) ∧
    logged (trace (pushLogData m ld env initial).2)
    = map (λ res, "got http status (" +:+ URL_Path (IngestURL (config m)) +:+ "): "
                  +:+ Status res) rs ∧
    bodiesRead (trace (pushLogData m ld env initial).2)
    = if debugEnabled env then map RespBody rs else [].
Proof.
  eexists. split; [reflexivity|].
  apply (push_preserves
           (λ s, logged (trace s)
                 = map (λ res, "got http status (" +:+ URL_Path (IngestURL (config m))
                               +:+ "): " +:+ Status res)
                     (List.filter rejected (closed (trace s)))
                 ∧ bodiesRead (trace s)
                   = if debugEnabled env
                     then map RespBody (List.filter rejected (closed (trace s)))
                     else [])
           m ld env).
  - intros s1 s2 Htr _ H. by rewrite <- Htr.
  - intros doc s [Hlog Hread].
    destruct (sendLinesToMezmo_trace m doc env s) as [->|[->|[res ->]]]; [done| |].
    + rewrite logged_app, bodiesRead_app, closed_app. cbn [logged bodiesRead closed].
      by rewrite !app_nil_r.
    + rewrite !logged_app, !bodiesRead_app, !closed_app, closed_diagnostics.
      cbn [logged bodiesRead closed app]. rewrite !app_nil_r, List.filter_app, !map_app.
      rewrite Hlog, Hread. cbn [List.filter]. unfold diagnostics, rejected.
      destruct (400 <=? StatusCode res); destruct (debugEnabled env);
        cbn [logged bodiesRead map]; by rewrite ?app_nil_r.
  - by destruct (debugEnabled env).
Qed.

(** *** A batch that fits into one document *)

Lemma Join_app (a b : list string) (sep : string) :
  a ≠ [] → b ≠ [] → Join (a ++ b) sep = Join a sep +:+ sep +:+ Join b sep.
Proof.
  induction a as [|x [|y rest] IH]; intros Ha Hb; [done| |].
  - destruct b as [|z b]; [done|]. reflexivity.
  - change (Join ((x :: y :: rest) ++ b) sep)
      with (x +:+ sep +:+ Join ((y :: rest) ++ b) sep).
    rewrite IH by done.
    change (Join (x :: y :: rest) sep) with (x +:+ sep +:+ Join (y :: rest) sep).
    by rewrite !app_assoc_string.
Qed.

Lemma len_Join_app (a b : list string) (sep : string) :
  len (Join a sep) <= len (Join (a ++ b) sep).
Proof.
  destruct a as [|x a]; [cbn [Join]; apply len_nonneg|].
  destruct b as [|y b]; [by rewrite app_nil_r|].
  rewrite Join_app by done. rewrite !len_app.
  pose proof (len_nonneg sep). pose proof (len_nonneg (Join (y :: b) sep)). lia.
Qed.

Lemma buffer_with_line (curEncs : list string) (i : nat) (e : string) :
  (i = 0%nat → curEncs = []) → (i ≠ 0%nat → curEncs ≠ []) →
  (if (0 <? i)%nat then (header +:+ Join curEncs ",") +:+ "," else header +:+ Join curEncs ",")
    +:+ e
  = header +:+ Join (curEncs ++ [e]) ",".
Proof.
  intros H0 H1.
  destruct i as [|i]; cbn [Nat.ltb Nat.leb].
  - rewrite (H0 eq_refl). by rewrite app_assoc_string.
  - rewrite Join_snoc by (by apply H1). by rewrite !app_assoc_string.
Qed.

Lemma plan_no_flush (encs : list string) :
  ∀ (cur : list string) (i : nat),
    (i = 0%nat → cur = []) → (i ≠ 0%nat → cur ≠ []) →
    len (document (cur ++ encs) false) < maxBodySize →
    plan (header +:+ Join cur ",") i encs = [document (cur ++ encs) false].
Proof.
  induction encs as [|e rest IH]; intros cur i H0 H1 Hfit.
  - cbn [plan]. by rewrite app_nil_r, document_closed.
  - cbn [plan]. cbv zeta. rewrite <- len_app, (buffer_with_line cur i e H0 H1).
    assert (Hno : (maxBodySize - 2 <=? len (header +:+ Join (cur ++ [e]) ",")) = false).
    { apply Z.leb_gt. rewrite len_app.
      pose proof (len_Join_app (cur ++ [e]) rest ",") as Hle.
      rewrite <- app_assoc in Hle. cbn [app] in Hle.
      unfold document in Hfit. rewrite !len_app in Hfit.
      change (len "") with 0 in Hfit. change (len footer) with 2 in Hfit. lia. }
    rewrite Hno.
    rewrite (IH (cur ++ [e]) (S i)); [by rewrite <- app_assoc| done | |].
    + intros _. by destruct cur.
    + by rewrite <- app_assoc.
Qed.

(** When the document of all the lines has fewer than [maxBodySize] bytes
    and nothing fails, a push issues exactly one request, and its document
    is well formed: the encoded lines separated by commas between the
    opening and the closing literal. *)
Theorem small_batch_is_one_document (m : mezmoExporter) (ld : plog.Logs) (env : Env)
    (lines : list mezmoLogLine) (encs : list string) (s0 : State) :
  completes env → (∀ doc, compresses m doc) →
  normalized ld env initial = (Ok lines, s0) →
  encodings lines encs →
  len (document encs false) < maxBodySize →
  requests (trace (pushLogData m ld env initial).2) = [requestFor m (document encs false)]
  ∧ document encs false = header +:+ Join encs "," +:+ footer.
Proof.
  intros Henv Hgz Hnorm Henc Hfit.
  destruct (convertResources_normalized ld [] env initial)
    as (lines' & s0' & Hnorm' & Hconv & _).
  rewrite Hnorm in Hnorm'. injection Hnorm' as <- <-. cbn [app] in Hconv.
  split; [|reflexivity].
  rewrite (push_plan m ld env lines encs s0 Henv Hgz Hconv Henc).
  pose proof (plan_no_flush encs [] 0%nat ltac:(done) ltac:(done) Hfit) as Hplan.
  cbn [Join app] in Hplan. rewrite app_empty_r in Hplan. by rewrite Hplan.
Qed.

(** *** The application name and the timestamp *)

Lemma Get_absent (attrs : pcommon.Map) (key : string) :
  key ∉ keysOf attrs → pcommon.Get attrs key = (pcommon.ValueEmpty, false).
Proof.
  induction attrs as [|[k v] rest IH]; intros Hnot; [done|].
  cbn [pcommon.Get]. unfold keysOf in *. cbn [fmap list_fmap fst] in Hnot.
  apply not_elem_of_cons in Hnot as [Hne Hrest].
  destruct (String.eqb_spec k key) as [->|_]; [done|]. by apply IH.
Qed.

Lemma Get_missing (attrs : pcommon.Map) (key : string) :
  (pcommon.Get attrs key).2 = false → pcommon.Get attrs key = (pcommon.ValueEmpty, false).
Proof.
  induction attrs as [|[k v] rest IH]; [done|].
  cbn [pcommon.Get]. by destruct (String.eqb k key).
Qed.

Lemma lastValue_Get (attrs : pcommon.Map) (key : string) :
  NoDup (keysOf attrs) →
  lastValue attrs key
  = if (pcommon.Get attrs key).2 then Some (pcommon.Get attrs key).1 else None.
Proof.
  induction attrs as [|[k v] rest IH]; intros Hnodup; [done|].
  unfold keysOf in *. cbn [fmap list_fmap fst] in Hnodup.
  apply NoDup_cons in Hnodup as [Hnot Hnodup].
  cbn [lastValue pcommon.Get]. rewrite (IH Hnodup).
  destruct (String.eqb_spec k key) as [->|Hne].
  - by rewrite (Get_absent rest key Hnot).
  - by destruct (pcommon.Get rest key).2.
Qed.

Lemma Get_found (attrs : pcommon.Map) (key : string) :
  (pcommon.Get attrs key).2 = true ↔ is_Some (lastValue attrs key).
Proof.
  induction attrs as [|[k v] rest IH].
  - cbn. split; [done|]. by intros [? ?].
  - cbn [lastValue pcommon.Get].
    destruct (String.eqb_spec k key) as [->|Hne].
    + cbn [snd]. split; [intros _|done]. by destruct (lastValue rest key).
    + rewrite IH. by destruct (lastValue rest key).
Qed.

(** The attribute "appname" of a record is used twice: its string value,
    cut to [maxAppnameLen], is the application name of the line, and, cut to
    [maxMetaDataSize] like every other attribute, it stays in the meta
    mapping.  A record without that attribute has the truncation of the empty
    string for application name and no "appname" in its meta mapping. *)
Theorem appname_goes_to_app_and_meta (h : bool) (host : pcommon.Value)
    (log : plog.LogRecord) (env : Env) (s : State) :
  ∃ line s', recordToLine h host log env s = (Ok line, s') ∧
    App line = truncateString
                 (pcommon.Str (pcommon.Get (plog.Attributes log) "appname").1)
                 maxAppnameLen ∧
    (is_Some (Meta line !! "appname")
     ↔ (pcommon.Get (plog.Attributes log) "appname").2 = true) ∧
    ((pcommon.Get (plog.Attributes log) "appname").2 = false →
     App line = truncateString "" maxAppnameLen) ∧
    (NoDup (keysOf (plog.Attributes log)) →
     (pcommon.Get (plog.Attributes log) "appname").2 = true →
     Meta line !! "appname"
     = Some (truncateString
               (pcommon.Str (pcommon.Get (plog.Attributes log) "appname").1)
               maxMetaDataSize)).
Proof.
  destruct (recordToLine_fields h host log env s) as (line & s' & Hrun & _ & Happ & Hmeta).
  exists line, s'. split_and!; [done|done| | |].
  - rewrite Hmeta, Get_found.
    destruct (lastValue (plog.Attributes log) "appname") as [v|]; [by split; eauto|].
    unfold resourceDerived. cbn. split; by intros [? ?].
  - intros Hnone. rewrite Happ. by rewrite (Get_missing _ _ Hnone).
  - intros Hnodup Hhas. rewrite Hmeta, (lastValue_Get _ _ Hnodup), Hhas. done.
Qed.

(** A record's timestamp counts as missing not only when it is zero: every
    timestamp below one millisecond is replaced by a reading of the clock.
    Any other timestamp is kept, as milliseconds rounded down, without
    reading the clock; one of 2^63 nanoseconds or more wraps around and gives
    a negative number of milliseconds. *)
Theorem sub_millisecond_timestamp_reads_the_clock (h : bool) (host : pcommon.Value)
    (log : plog.LogRecord) (env : Env) (s : State) :
  ∃ line s', recordToLine h host log env s = (Ok line, s') ∧
    let ts := plog.Timestamp log in
    (0 <= ts < 1000000 →
     Timestamp line = clock env (clockReads s) ∧ clockReads s' = S (clockReads s)) ∧
    (1000000 <= ts < 2 ^ 63 →
     Timestamp line = ts `div` 1000000 ∧ 0 < Timestamp line ∧ s' = s) ∧
    (2 ^ 63 <= ts < 2 ^ 64 →
     Timestamp line = (ts - 2 ^ 64) `div` 1000000 ∧ Timestamp line < 0 ∧ s' = s).
Proof.
  cbv zeta.
  assert (Hms : time.UnixMilli (time.AsTime (plog.Timestamp log))
                = time.int64_of_uint64 (plog.Timestamp log) `div` 1000000)
    by apply UnixMilli_AsTime.
  unfold time.int64_of_uint64 in Hms.
  run_recordToLine.
  - apply Z.eqb_eq in Ems. rewrite Hms in Ems. split_and!.
    + done.
    + intros [Hlo Hhi]. exfalso.
      destruct (plog.Timestamp log <? 2 ^ 63) eqn:Hsmall; [|apply Z.ltb_ge in Hsmall; lia].
      pose proof (Z.div_le_lower_bound (plog.Timestamp log) 1000000 1 ltac:(lia) ltac:(lia)).
      lia.
    + intros [Hlo Hhi]. exfalso.
      destruct (plog.Timestamp log <? 2 ^ 63) eqn:Hsmall; [apply Z.ltb_lt in Hsmall; lia|].
      pose proof (Z.div_lt_upper_bound (plog.Timestamp log - 2 ^ 64) 1000000 0
                    ltac:(lia) ltac:(lia)).
      lia.
  - apply Z.eqb_neq in Ems. rewrite Hms in *. split_and!.
    + intros [Hlo Hhi]. exfalso. apply Ems.
      destruct (plog.Timestamp log <? 2 ^ 63) eqn:Hsmall; [|apply Z.ltb_ge in Hsmall; lia].
      by apply Z.div_small.
    + intros [Hlo Hhi].
      destruct (plog.Timestamp log <? 2 ^ 63) eqn:Hsmall; [|apply Z.ltb_ge in Hsmall; lia].
      split_and!; [done| |done].
      pose proof (Z.div_le_lower_bound (plog.Timestamp log) 1000000 1 ltac:(lia) ltac:(lia)).
      lia.
    + intros [Hlo Hhi].
      destruct (plog.Timestamp log <? 2 ^ 63) eqn:Hsmall; [apply Z.ltb_lt in Hsmall; lia|].
      split_and!; [done| |done].
      apply Z.div_lt_upper_bound; lia.
Qed.

End Exporter.

(** ** Starting and stopping *)

Lemma closedClients_app (evs1 evs2 : list lifecycle.Event) :
  lifecycle.closedClients (evs1 ++ evs2)
  = lifecycle.closedClients evs1 ++ lifecycle.closedClients evs2.
Proof.
  induction evs1 as [|[|c] evs1 IH]; cbn [app lifecycle.closedClients]; [done|done|].
  by rewrite IH.
Qed.

Lemma closing_app (cs1 cs2 : list lifecycle.Client) :
  lifecycle.closing (cs1 ++ cs2) = lifecycle.closing cs1 ++ lifecycle.closing cs2.
Proof. unfold lifecycle.closing. apply flat_map_app. Qed.

Lemma lifecycle_run (ops : list lifecycle.Op) :
  ∀ m0 : lifecycle.exporter,
    ∃ cs : list lifecycle.Client,
      (lifecycle.run ops m0).1 = map lifecycle.returned ops ∧
      lifecycle.effects (lifecycle.run ops m0).2
      = lifecycle.effects m0 ++ lifecycle.closing cs ∧
      sublist (cs ++ lifecycle.held (lifecycle.run ops m0).2)
              (lifecycle.held m0 ++ lifecycle.started ops).
Proof.
  induction ops as [|op rest IH]; intros m0.
  - exists []. cbn. split_and!; [done|by rewrite app_nil_r|by rewrite app_nil_r].
  - destruct op as [c err|].
    + destruct (IH {| lifecycle.client := c; lifecycle.effects := lifecycle.effects m0 |})
        as (cs & Herr & Heff & Hsub).
      exists cs. cbn [lifecycle.run lifecycle.step lifecycle.start].
      destruct (lifecycle.run rest _) as [errs m]. cbn [fst snd] in *.
      split_and!; [by rewrite Herr|done|].
      apply sublist_inserts_l.
      unfold lifecycle.held at 2 in Hsub. cbn [lifecycle.client] in Hsub.
      destruct c; [done|]. apply Hsub.
    + cbn [lifecycle.run lifecycle.step]. unfold lifecycle.stop.
      destruct (lifecycle.client m0) as [c|] eqn:Hc.
      * destruct (IH {| lifecycle.client := None;
                        lifecycle.effects := lifecycle.effects m0
                          ++ [lifecycle.Wait; lifecycle.CloseIdleConnections c] |})
          as (cs & Herr & Heff & Hsub).
        exists (c :: cs).
        destruct (lifecycle.run rest _) as [errs m]. cbn [fst snd] in *.
        split_and!; [by rewrite Herr| |].
        { rewrite Heff. cbn [lifecycle.effects]. by rewrite <- app_assoc. }
        unfold lifecycle.held at 2. rewrite Hc. cbn [app].
        apply sublist_skip. by cbn in Hsub.
      * destruct (IH m0) as (cs & Herr & Heff & Hsub).
        exists cs.
        destruct (lifecycle.run rest _) as [errs m]. cbn [fst snd] in *.
        split_and!; [by rewrite Herr|done|].
        unfold lifecycle.held in *. rewrite Hc in *. apply Hsub.
Qed.

Lemma closedClients_closing (cs : list lifecycle.Client) :
  lifecycle.closedClients (lifecycle.closing cs) = cs.
Proof.
  induction cs as [|c cs IH]; [done|].
  change (lifecycle.closedClients (lifecycle.closing (c :: cs)))
    with (c :: lifecycle.closedClients (lifecycle.closing cs)).
  by rewrite IH.
Qed.

Lemma lifecycle_run_app (ops1 ops2 : list lifecycle.Op) (m0 : lifecycle.exporter) :
  (lifecycle.run (ops1 ++ ops2) m0).2
  = (lifecycle.run ops2 (lifecycle.run ops1 m0).2).2.
Proof.
  revert m0. induction ops1 as [|op ops1 IH]; intros m0; [done|].
  cbn [app lifecycle.run]. destruct (lifecycle.step op m0) as [err m1].
  specialize (IH m1).
  destruct (lifecycle.run (ops1 ++ ops2) m1) as [errs m2].
  destruct (lifecycle.run ops1 m1) as [errs1 m3]. cbn [snd] in *.
  destruct (lifecycle.run ops2 m3) as [errs2 m4]. by cbn [snd] in *.
Qed.

(** Over any sequence of [start] and [stop] calls on a new exporter: a
    [start] returns the error of [ToClientContext] and a [stop] returns none;
    the exporter waits for the pushes in flight before each closing of idle
    connections, and does nothing else; and the clients it closed, followed
    by the one it still holds, are among the clients it was started with, in
    that order and each at most as often as it was handed over.  So no client
    is closed twice for one [start], and none that was never stored. *)
Theorem stop_closes_only_what_start_stored (ops : list lifecycle.Op) :
  ∃ (m : lifecycle.exporter) (cs : list lifecycle.Client),
    lifecycle.run ops lifecycle.fresh = (map lifecycle.returned ops, m) ∧
    cs = lifecycle.closedClients (lifecycle.effects m) ∧
    lifecycle.effects m = lifecycle.closing cs ∧
    sublist (cs ++ lifecycle.held m) (lifecycle.started ops).
Proof.
  exists (lifecycle.run ops lifecycle.fresh).2,
    (lifecycle.closedClients (lifecycle.effects (lifecycle.run ops lifecycle.fresh).2)).
  cut ((lifecycle.run ops lifecycle.fresh).1 = map lifecycle.returned ops ∧
       lifecycle.effects (lifecycle.run ops lifecycle.fresh).2
       = lifecycle.closing
           (lifecycle.closedClients (lifecycle.effects (lifecycle.run ops lifecycle.fresh).2)) ∧
       sublist (lifecycle.closedClients (lifecycle.effects (lifecycle.run ops lifecycle.fresh).2)
                  ++ lifecycle.held (lifecycle.run ops lifecycle.fresh).2)
               (lifecycle.started ops)).
  { intros (H1 & H2 & H3). split_and!; [|done|done|done].
    rewrite <- H1. by destruct (lifecycle.run ops lifecycle.fresh). }
  destruct (lifecycle_run ops lifecycle.fresh) as (cs & Herr & Heff & Hsub).
  cbn [lifecycle.fresh lifecycle.effects lifecycle.held lifecycle.client app] in Heff, Hsub.
  rewrite Heff, closedClients_closing. done.
Qed.

(** After a [stop] the exporter holds no client, whatever went before, and
    further [stop]s wait for nothing and close nothing, until the next
    [start]. *)
Theorem stop_is_idempotent (ops : list lifecycle.Op) (n : nat) :
  ∃ m : lifecycle.exporter,
    (lifecycle.run (ops ++ [lifecycle.Stop]) lifecycle.fresh).2 = m ∧
    lifecycle.client m = None ∧
    lifecycle.run (replicate n lifecycle.Stop) m = (replicate n None, m).
Proof.
  eexists. split; [reflexivity|]. rewrite lifecycle_run_app.
  set (m0 := (lifecycle.run ops lifecycle.fresh).2).
  assert (Hnone : lifecycle.client (lifecycle.run [lifecycle.Stop] m0).2 = None).
  { cbn [lifecycle.run lifecycle.step]. unfold lifecycle.stop.
    by destruct (lifecycle.client m0) eqn:Hc. }
  generalize dependent (lifecycle.run [lifecycle.Stop] m0).2. intros m1 Hnone.
  split; [done|].
  induction n as [|n IH]; [done|].
  cbn [replicate lifecycle.run lifecycle.step]. unfold lifecycle.stop at 1.
  by rewrite Hnone, IH.
Qed.

(** ** The exporter on concrete batches *)

(** The three records of [scenario] go out in one request; the lines of the
    first group carry its host name, the line of the second group carries
    the trace identifier in hexadecimal and has no host name. *)
Example scenario_three_records :
  ∃ l1 l2 l3 s0 req,
    normalized utils.truncateString 16384 32768 512 32 scenario
      (mockEndpoint 200 "200 OK" false) initial = (Ok [l1; l2; l3], s0) ∧
    requests (trace (pushLogData utils.truncateString 10485760 16384 32768 512 32 json.Marshal
                       (λ _, None) stored_stream path_of (testExporter false) scenario
                       (mockEndpoint 200 "200 OK" false) initial).2) = [req] ∧
    Meta l1 !! "hostname" = Some "web-1" ∧ Meta l2 !! "hostname" = Some "web-1" ∧
    Meta l3 !! "hostname" = None ∧
    Meta l3 !! "trace.id" = Some "000000000000000000000000000000ab" ∧
    Timestamp l3 = 1700000000123 ∧ Level l3 = "warn" ∧ App l3 = "storage" ∧
    Level l1 = "info" ∧ Timestamp l1 = 1700000000000.
Proof.
  eexists _, _, _, _, _. split; [vm_compute; reflexivity|].
  split; [vm_compute; reflexivity|]. vm_compute. by repeat split.
Qed.

Lemma truncateString_empty (n : Z) : utils.truncateString "" n = "".
Proof.
  unfold utils.truncateString. destruct (len "" <=? n); [done|].
  by destruct (Z.to_nat n).
Qed.

Lemma escape_repeat_k (n : nat) : json.escape 0 0 (repeat_char "k" n) = repeat_char "k" n.
Proof.
  induction n as [|n IH]; [done|]. cbn [repeat_char json.escape].
  change (N_of_ascii "k" <? 128)%N with true.
  change (json.htmlSafe (N_of_ascii "k")) with true.
  cbn iota. by rewrite IH.
Qed.

Lemma len_repeat_char (c : ascii) (n : nat) : len (repeat_char c n) = Z.of_nat n.
Proof. unfold len. f_equal. induction n as [|n IH]; [done|]. cbn. by rewrite IH. Qed.

Lemma repeat_k_not_appname (n : nat) : (repeat_char "k" n =? "appname")%string = false.
Proof. by destruct n. Qed.

Lemma recordToLine_keyed (mm md ma ml : Z) (n : nat) (env : Env) (s : State) :
  recordToLine utils.truncateString mm md ma ml false pcommon.ValueEmpty (keyedRecord n) env s
  = (Ok (keyedLine (clock env (clockReads s)) n), afterNow s).
Proof.
  unfold recordToLine, keyedRecord.
  cbn [plog.Timestamp plog.SeverityText plog.Body plog.TraceID plog.SpanID
       plog.Attributes pcommon.Range pcommon.Get pcommon.Str fst snd].
  rewrite repeat_k_not_appname. cbn [fst pcommon.Str].
  rewrite !truncateString_empty.
  reflexivity.
Qed.

Lemma recordToLine_empty (mm md ma ml : Z) (env : Env) (s : State) :
  recordToLine utils.truncateString mm md ma ml false pcommon.ValueEmpty emptyRecord env s
  = (Ok (emptyLine (clock env (clockReads s))), afterNow s).
Proof.
  unfold recordToLine, emptyRecord.
  cbn [plog.Timestamp plog.SeverityText plog.Body plog.TraceID plog.SpanID
       plog.Attributes pcommon.Range pcommon.Get pcommon.Str fst snd].
  rewrite !truncateString_empty.
  reflexivity.
Qed.

Lemma Marshal_emptyLine : json.Marshal (emptyLine 1700000000000) = Ok emptyLineBytes.
Proof. vm_compute. reflexivity. Qed.

Lemma len_emptyLineBytes : len emptyLineBytes = 71.
Proof. vm_compute. reflexivity. Qed.

Lemma Marshal_keyedLine (t : Z) (n : nat) :
  ∃ e, json.Marshal (keyedLine t n) = Ok e
       ∧ len e = 63 + len (json.appendInt t) + Z.of_nat n.
Proof.
  unfold json.Marshal, keyedLine. cbn [Timestamp Line App Level Meta].
  eexists; split; [reflexivity|].
  unfold json.appendMap. rewrite map_to_list_singleton.
  change (merge_sort json.key_le [(repeat_char "k" n, "")]) with [(repeat_char "k" n, "")].
  cbn [map Join]. unfold json.member, json.appendString, json.field. cbn [fst snd].
  rewrite escape_repeat_k, !len_app, len_repeat_char.
  generalize (len (json.appendInt t)); intros z.
  change (len "{") with 1. change (len "}") with 1. change (len dq) with 1.
  change (len ",") with 1. change (len ":") with 1.
  change (len "timestamp") with 9. change (len "line") with 4.
  change (len "app") with 3. change (len "level") with 5. change (len "meta") with 4.
  change (len (json.escape 0 0 "")) with 0. change (len (json.escape 0 0 "info")) with 4.
  lia.
Qed.

Lemma mockEndpoint_completes (status : Z) (text : string) (debug : bool) :
  completes (mockEndpoint status text debug).
Proof. intros n req. by eexists. Qed.

Lemma convert_oneResource (mm md ma ml : Z) (logs : list plog.LogRecord) (env : Env) (s : State) :
  convertResources utils.truncateString mm md ma ml (oneResource logs) [] env s
  = convertRecords utils.truncateString mm md ma ml false pcommon.ValueEmpty logs [] env s.
Proof.
  unfold oneResource.
  cbn [convertResources convertScopes plog.Resource plog.ScopeLogsSlice plog.LogRecords pcommon.Get].
  unfold mbind, M_bind, mret, M_ret.
  by destruct (convertRecords _ _ _ _ _ _ _ _ _ _ _) as [[ls|e] s'].
Qed.

Lemma len_header : len header = 11. Proof. reflexivity. Qed.
Lemma len_footer : len footer = 2. Proof. reflexivity. Qed.

(** C1 does not hold of the code.  Whatever [maxBodySize] is, the push of a
    single record whose only attribute has a key of [maxBodySize] bytes
    issues a request whose body has [maxBodySize] bytes or more: a line that
    does not fit is written into a fresh document all the same.  And when
    [maxBodySize] is 100 or more, the push of a record whose line has
    [maxBodySize - 14] bytes, followed by any other record, issues first a
    request whose body has exactly [maxBodySize] bytes: the comma written
    before the size test is not counted. *)
Theorem oversized_line_reaches_maxBodySize
    (maxBodySize maxMessageSize maxMetaDataSize maxAppnameLen maxLogLevelLen : Z) :
  (∃ req,
     req ∈ requests (trace (pushLogData utils.truncateString maxBodySize maxMessageSize
                              maxMetaDataSize maxAppnameLen maxLogLevelLen json.Marshal
                              (λ _, None) stored_stream path_of (testExporter false)
                              (oneResource [keyedRecord (Z.to_nat maxBodySize)])
                              (mockEndpoint 200 "200 OK" false) initial).2)
     ∧ maxBodySize <= len (ReqBody req)) ∧
  (100 <= maxBodySize →
   ∃ req rest,
     requests (trace (pushLogData utils.truncateString maxBodySize maxMessageSize
                        maxMetaDataSize maxAppnameLen maxLogLevelLen json.Marshal
                        (λ _, None) stored_stream path_of (testExporter false)
                        (oneResource [keyedRecord (Z.to_nat (maxBodySize - 90)); emptyRecord])
                        (mockEndpoint 200 "200 OK" false) initial).2) = req :: rest
     ∧ len (ReqBody req) = maxBodySize).
Proof.
  split.
  - destruct (Marshal_keyedLine 1700000000000 (Z.to_nat maxBodySize)) as (e & He & Hlen).
    change (len (json.appendInt 1700000000000)) with 13 in Hlen.
    rewrite (push_plan utils.truncateString maxBodySize maxMessageSize maxMetaDataSize
               maxAppnameLen maxLogLevelLen json.Marshal (λ _, None) stored_stream path_of
               (testExporter false) _ _
               [keyedLine 1700000000000 (Z.to_nat maxBodySize)] [e] (afterNow initial)).
    + cbn [plan]. cbv zeta. cbn [Nat.ltb Nat.leb].
      rewrite len_header.
      destruct (maxBodySize - 2 <=? 11 + len e) eqn:Hc; [|apply Z.leb_gt in Hc; lia].
      cbn [plan map].
      exists (requestFor stored_stream (testExporter false) ((header +:+ e) +:+ footer)).
      split; [set_solver|].
      cbn [requestFor ReqBody payload testExporter newLogsExporter config testConfig Compression].
      rewrite !len_app, len_header, len_footer. lia.
    + apply mockEndpoint_completes.
    + intros doc Hc. discriminate Hc.
    + rewrite convert_oneResource. cbn [convertRecords]. unfold mbind, M_bind, mret, M_ret.
      rewrite recordToLine_keyed. reflexivity.
    + constructor; [done|constructor].
  - intros HM.
    destruct (Marshal_keyedLine 1700000000000 (Z.to_nat (maxBodySize - 90))) as (e & He & Hlen).
    change (len (json.appendInt 1700000000000)) with 13 in Hlen.
    assert (∃ e2, json.Marshal (emptyLine 1700000000001) = Ok e2) as [e2 He2] by (by eexists).
    rewrite (push_plan utils.truncateString maxBodySize maxMessageSize maxMetaDataSize
               maxAppnameLen maxLogLevelLen json.Marshal (λ _, None) stored_stream path_of
               (testExporter false) _ _
               [keyedLine 1700000000000 (Z.to_nat (maxBodySize - 90)); emptyLine 1700000000001]
               [e; e2] (afterNow (afterNow initial))).
    + cbn [plan]. cbv zeta. cbn [Nat.ltb Nat.leb].
      rewrite len_header.
      rewrite !len_app, len_header.
      change (len ",") with 1.
      pose proof (len_nonneg e2).
      destruct (maxBodySize - 2 <=? 11 + len e) eqn:Hc; [apply Z.leb_le in Hc; lia|].
      destruct (maxBodySize - 2 <=? 11 + len e + 1 + len e2) eqn:Hc2;
        [|apply Z.leb_gt in Hc2; lia].
      cbn [map]. eexists _, _. split; [reflexivity|].
      cbn [requestFor ReqBody payload testExporter newLogsExporter config testConfig Compression].
      rewrite !len_app, len_header, len_footer. change (len ",") with 1. lia.
    + apply mockEndpoint_completes.
    + intros doc Hc. discriminate Hc.
    + rewrite convert_oneResource. cbn [convertRecords]. unfold mbind, M_bind, mret, M_ret.
      rewrite recordToLine_keyed, recordToLine_empty. reflexivity.
    + constructor; [done|]. constructor; [exact He2|constructor].
Qed.

Lemma app_inv_head_string (s t t' : string) : s +:+ t = s +:+ t' → t = t'.
Proof.
  induction s as [|c s IH]; [done|].
  intros H. change (String c (s +:+ t) = String c (s +:+ t')) in H.
  injection H as H. by apply IH.
Qed.

Lemma list_ascii_of_string_app (s t : string) :
  String.list_ascii_of_string (s +:+ t)
  = String.list_ascii_of_string s ++ String.list_ascii_of_string t.
Proof.
  induction s as [|c s IH]; [done|].
  change (c :: String.list_ascii_of_string (s +:+ t)
          = c :: (String.list_ascii_of_string s ++ String.list_ascii_of_string t)).
  by rewrite IH.
Qed.

Lemma app_inv_tail_string (s s' t : string) : s +:+ t = s' +:+ t → s = s'.
Proof.
  intros H. apply (f_equal String.list_ascii_of_string) in H.
  rewrite !list_ascii_of_string_app in H. apply app_inv_tail in H.
  rewrite <- (String.string_of_list_ascii_of_string s),
          <- (String.string_of_list_ascii_of_string s').
  by rewrite H.
Qed.

Lemma lastChar_app_r (s t : string) (c : ascii) :
  lastChar t = Some c → lastChar (s +:+ t) = Some c.
Proof.
  intros Ht. induction s as [|a s IH]; [done|].
  change (lastChar (String a (s +:+ t)) = Some c). cbn [lastChar].
  by destruct (s +:+ t).
Qed.

Lemma Marshal_lastChar (l : mezmoLogLine) (e : string) :
  json.Marshal l = Ok e → lastChar e = Some "}"%char.
Proof.
  unfold json.Marshal. intros [= <-].
  repeat apply lastChar_app_r. reflexivity.
Qed.

Lemma Join_lastChar (encs : list string) (sep : string) (c : ascii) :
  encs ≠ [] → Forall (λ e, lastChar e = Some c) encs → lastChar (Join encs sep) = Some c.
Proof.
  induction encs as [|e [|e' rest] IH]; intros Hne Hall; [done| |].
  - by apply Forall_inv in Hall.
  - change (Join (e :: e' :: rest) sep) with (e +:+ sep +:+ Join (e' :: rest) sep).
    do 2 apply lastChar_app_r. apply IH; [done|]. by apply Forall_inv_tail in Hall.
Qed.

(** C2 does not hold of the code.  When [maxBodySize] is 100 or more, the
    push of a small record followed by one that does not fit beside it
    issues first a request whose body ends with a comma before the closing
    bracket; that body is not the document of any list of lines. *)
Theorem flushed_document_ends_with_a_comma
    (maxBodySize maxMessageSize maxMetaDataSize maxAppnameLen maxLogLevelLen : Z) :
  100 <= maxBodySize →
  ∃ req rest,
    requests (trace (pushLogData utils.truncateString maxBodySize maxMessageSize
                       maxMetaDataSize maxAppnameLen maxLogLevelLen json.Marshal
                       (λ _, None) stored_stream path_of (testExporter false)
                       (oneResource [emptyRecord; keyedRecord (Z.to_nat maxBodySize)])
                       (mockEndpoint 200 "200 OK" false) initial).2) = req :: rest ∧
    ReqBody req = header +:+ emptyLineBytes +:+ ",]}" ∧
    ¬ ∃ (lines : list mezmoLogLine) (encs : list string),
        encodings json.Marshal lines encs ∧ ReqBody req = document encs false.
Proof.
  intros HM.
  destruct (Marshal_keyedLine 1700000000001 (Z.to_nat maxBodySize)) as (e & He & Hlen).
  change (len (json.appendInt 1700000000001)) with 13 in Hlen.
  rewrite (push_plan utils.truncateString maxBodySize maxMessageSize maxMetaDataSize
             maxAppnameLen maxLogLevelLen json.Marshal (λ _, None) stored_stream path_of
             (testExporter false) _ _
             [emptyLine 1700000000000; keyedLine 1700000000001 (Z.to_nat maxBodySize)]
             [emptyLineBytes; e] (afterNow (afterNow initial))).
  - cbn [plan]. cbv zeta. cbn [Nat.ltb Nat.leb].
    rewrite !len_app, len_header, len_emptyLineBytes. change (len ",") with 1.
    destruct (maxBodySize - 2 <=? 11 + 71) eqn:Hc; [apply Z.leb_le in Hc; lia|].
    destruct (maxBodySize - 2 <=? 11 + 71 + 1 + len e) eqn:Hc2;
      [|apply Z.leb_gt in Hc2; lia].
    cbn [map]. eexists _, _. split; [reflexivity|].
    cbn [requestFor ReqBody payload testExporter newLogsExporter config testConfig Compression].
    split.
    + by rewrite !app_assoc_string.
    + intros (lines & encs & Henc & Hdoc). unfold document in Hdoc.
      rewrite !app_assoc_string in Hdoc. apply app_inv_head_string in Hdoc.
      change ("," +:+ footer) with ("," +:+ "" +:+ footer) in Hdoc.
      rewrite <- !app_assoc_string in Hdoc. apply app_inv_tail_string in Hdoc.
      rewrite !app_empty_r in Hdoc.
      assert (Hlast : lastChar (emptyLineBytes +:+ ",") = Some ","%char) by reflexivity.
      rewrite Hdoc in Hlast.
      destruct encs as [|e0 encs']; [done|].
      rewrite (Join_lastChar (e0 :: encs') "," "}"%char) in Hlast; [done|done|].
      clear -Henc. induction Henc as [|l x ls xs Hx _ IH]; constructor; [|done].
      by apply Marshal_lastChar in Hx.
  - apply mockEndpoint_completes.
  - intros doc Hc. discriminate Hc.
  - rewrite convert_oneResource. cbn [convertRecords]. unfold mbind, M_bind, mret, M_ret.
    rewrite recordToLine_empty, recordToLine_keyed. reflexivity.
  - constructor; [exact Marshal_emptyLine|]. constructor; [exact He|constructor].
Qed.

Lemma comma_before_footer_is_no_document (lines : list mezmoLogLine) (encs : list string) :
  encodings json.Marshal lines encs →
  header +:+ emptyLineBytes +:+ ",]}" ≠ document encs false.
Proof.
  intros Henc Hdoc. unfold document in Hdoc.
  apply app_inv_head_string in Hdoc.
  change (emptyLineBytes +:+ ",]}") with (emptyLineBytes +:+ "," +:+ footer) in Hdoc.
  rewrite <- !app_assoc_string in Hdoc. apply app_inv_tail_string in Hdoc.
  rewrite !app_empty_r in Hdoc.
  assert (Hlast : lastChar (emptyLineBytes +:+ ",") = Some ","%char) by reflexivity.
  rewrite Hdoc in Hlast.
  destruct encs as [|e0 encs']; [done|].
  rewrite (Join_lastChar (e0 :: encs') "," "}"%char) in Hlast; [done|done|].
  clear -Henc. induction Henc as [|l x ls xs Hx _ IH]; constructor; [|done].
  by apply Marshal_lastChar in Hx.
Qed.

Lemma normalized_empty_keyed (mm md ma ml : Z) (n : nat) :
  normalized utils.truncateString mm md ma ml (oneResource [emptyRecord; keyedRecord n])
    (mockEndpoint 200 "200 OK" false) initial
  = (Ok [emptyLine 1700000000000; keyedLine 1700000000001 n], afterNow (afterNow initial)).
Proof.
  unfold normalized, recordsOf, oneResource.
  cbn [mbind list_bind plog.ScopeLogsSlice plog.LogRecords plog.Resource pcommon.Get
       app forEach fst snd].
  unfold mbind, M_bind, mret, M_ret.
  rewrite recordToLine_empty, recordToLine_keyed. reflexivity.
Qed.

Lemma first_request_of_flushing_push
    (maxBodySize maxMessageSize maxMetaDataSize maxAppnameLen maxLogLevelLen : Z) :
  100 <= maxBodySize →
  ∃ req rest,
    requests (trace (pushLogData utils.truncateString maxBodySize maxMessageSize
                       maxMetaDataSize maxAppnameLen maxLogLevelLen json.Marshal
                       (λ _, None) stored_stream path_of (testExporter false)
                       (oneResource [emptyRecord; keyedRecord (Z.to_nat maxBodySize)])
                       (mockEndpoint 200 "200 OK" false) initial).2) = req :: rest ∧
    ReqBody req = header +:+ emptyLineBytes +:+ ",]}".
Proof.
  intros HM.
  destruct (Marshal_keyedLine 1700000000001 (Z.to_nat maxBodySize)) as (e & He & Hlen).
  change (len (json.appendInt 1700000000001)) with 13 in Hlen.
  rewrite (push_plan utils.truncateString maxBodySize maxMessageSize maxMetaDataSize
             maxAppnameLen maxLogLevelLen json.Marshal (λ _, None) stored_stream path_of
             (testExporter false) _ _
             [emptyLine 1700000000000; keyedLine 1700000000001 (Z.to_nat maxBodySize)]
             [emptyLineBytes; e] (afterNow (afterNow initial))).
  - cbn [plan]. cbv zeta. cbn [Nat.ltb Nat.leb].
    rewrite !len_app, len_header, len_emptyLineBytes. change (len ",") with 1.
    destruct (maxBodySize - 2 <=? 11 + 71) eqn:Hc; [apply Z.leb_le in Hc; lia|].
    destruct (maxBodySize - 2 <=? 11 + 71 + 1 + len e) eqn:Hc2;
      [|apply Z.leb_gt in Hc2; lia].
    cbn [map]. eexists _, _. split; [reflexivity|].
    cbn [requestFor ReqBody payload testExporter newLogsExporter config testConfig Compression].
    by rewrite !app_assoc_string.
  - apply mockEndpoint_completes.
  - intros doc Hc. discriminate Hc.
  - rewrite convert_oneResource. cbn [convertRecords]. unfold mbind, M_bind, mret, M_ret.
    rewrite recordToLine_empty, recordToLine_keyed. reflexivity.
  - constructor; [exact Marshal_emptyLine|]. constructor; [exact He|constructor].
Qed.

(** C3 does not hold of the code.  When [maxBodySize] is 100 or more, the
    push of a small record followed by one that does not fit beside it
    returns no error, and yet the arrays of lines of the documents it sent
    cannot be put end to end to give the two normalised records: the first
    document sent has a comma before its closing bracket and so has no array
    of lines at all. *)
Theorem flushed_document_has_no_lines_array
    (maxBodySize maxMessageSize maxMetaDataSize maxAppnameLen maxLogLevelLen : Z) :
  100 <= maxBodySize →
  ∃ lines s0,
    normalized utils.truncateString maxMessageSize maxMetaDataSize maxAppnameLen
      maxLogLevelLen (oneResource [emptyRecord; keyedRecord (Z.to_nat maxBodySize)])
      (mockEndpoint 200 "200 OK" false) initial = (Ok lines, s0) ∧
    lines = [emptyLine 1700000000000; keyedLine 1700000000001 (Z.to_nat maxBodySize)] ∧
    (pushLogData utils.truncateString maxBodySize maxMessageSize maxMetaDataSize
       maxAppnameLen maxLogLevelLen json.Marshal (λ _, None) stored_stream path_of
       (testExporter false) (oneResource [emptyRecord; keyedRecord (Z.to_nat maxBodySize)])
       (mockEndpoint 200 "200 OK" false) initial).1 = Ok () ∧
    ¬ ∃ groups,
        Forall2 (linesArray json.Marshal stored_stream (testExporter false))
          (requests (trace (pushLogData utils.truncateString maxBodySize maxMessageSize
                              maxMetaDataSize maxAppnameLen maxLogLevelLen json.Marshal
                              (λ _, None) stored_stream path_of (testExporter false)
                              (oneResource [emptyRecord; keyedRecord (Z.to_nat maxBodySize)])
                              (mockEndpoint 200 "200 OK" false) initial).2))
          groups ∧
        concat groups = lines.
Proof.
  intros HM. eexists _, _. split; [apply normalized_empty_keyed|].
  split; [reflexivity|]. split.
  - apply push_completes; [apply mockEndpoint_completes| |].
    + intros doc Hc. discriminate Hc.
    + intros l. by eexists.
  - intros (groups & Hall & _).
    destruct (first_request_of_flushing_push maxBodySize maxMessageSize maxMetaDataSize
                maxAppnameLen maxLogLevelLen HM) as (req & rest & Hreqs & Hbody).
    rewrite Hreqs in Hall.
    apply Forall2_cons_inv_l in Hall as (g & gs & (encs & Henc & Hreq) & _ & _).
    rewrite Hreq in Hbody.
    cbn [requestFor ReqBody payload testExporter newLogsExporter config testConfig Compression]
      in Hbody.
    by apply (comma_before_footer_is_no_document g encs Henc).
Qed.

(** C6 as stated fails: under a resource without a host name, a record that
    has an attribute named "hostname" yields a line whose meta mapping
    contains "hostname". *)
Lemma hostname_without_resource_host_name :
  ∃ line s',
    normalized utils.truncateString 16384 32768 512 32 (oneResource [namedRecord])
      (mockEndpoint 200 "200 OK" false) initial = (Ok [line], s') ∧
    (pcommon.Get (plog.Resource {| plog.Resource := []; plog.ScopeLogsSlice := [] |})
       "host.name").2 = false ∧
    ¬ (is_Some (Meta line !! "hostname") ↔
       (pcommon.Get (plog.Resource {| plog.Resource := []; plog.ScopeLogsSlice := [] |})
          "host.name").2 = true).
Proof.
  eexists _, _. split; [vm_compute; reflexivity|]. split; [reflexivity|].
  intros [H _]. cbn in H. discriminate H. by eexists.
Qed.

Lemma resource_hostname_is_stored_whole_witness :
  (∃ line s',
     recordToLine utils.truncateString 16384 32768 512 32 true
       (pcommon.ValueStr (repeat_char "h" (Z.to_nat 40000))) emptyRecord
       (mockEndpoint 200 "200 OK" false) initial = (Ok line, s') ∧
     Meta line !! "hostname"
     = Some (pcommon.AsString (pcommon.ValueStr (repeat_char "h" (Z.to_nat 40000)))))
  ∧ 32768 < len (repeat_char "h" (Z.to_nat 40000)).
Proof.
  split.
  - apply (resource_hostname_is_stored_whole utils.truncateString 16384 32768 512 32
             (pcommon.ValueStr (repeat_char "h" (Z.to_nat 40000))) emptyRecord).
    reflexivity.
  - rewrite len_repeat_char. lia.
Defined.

Lemma non_string_values_become_empty_witness :
  ∃ line s',
    recordToLine utils.truncateString 16384 32768 512 32 true (pcommon.ValueInt 42)
      numericRecord (mockEndpoint 200 "200 OK" false) initial = (Ok line, s') ∧
    Meta line !! "retries" = Some "" ∧
    Line line = "" ∧
    Meta line !! "hostname" = Some "42".
Proof.
  destruct (non_string_values_become_empty utils.truncateString 16384 32768 512 32 true
              (pcommon.ValueInt 42) numericRecord (mockEndpoint 200 "200 OK" false) initial
              truncateString_empty)
    as (line & s' & Hrun & Hattr & Hbody & Hhost).
  exists line, s'. split_and!.
  - exact Hrun.
  - apply (Hattr "retries" (pcommon.ValueInt 3)); reflexivity.
  - apply Hbody. reflexivity.
  - apply Hhost; reflexivity.
Defined.

Lemma compressed_body_round_trips_witness :
  ∃ req rest,
    trace (sendLinesToMezmo (λ _, None) stored_stream path_of (testExporter true)
             (document [] false) (mockEndpoint 200 "200 OK" false) initial).2
    = trace initial ++ EvDo req :: rest ∧
    requests rest = [] ∧
    stored_gunzip (ReqBody req) = Some (document [] false) ∧
    ("Content-Encoding", "gzip") ∈ Header req ∧
    ∀ m0, Compression (config m0) = false →
          ReqBody (requestFor stored_stream m0 (document [] false)) = document [] false.
Proof.
  apply (compressed_body_round_trips (λ _, None) stored_stream path_of stored_gunzip
           (testExporter true) (document [] false) (mockEndpoint 200 "200 OK" false) initial
           _ (sendLinesToMezmo (λ _, None) stored_stream path_of (testExporter true)
                (document [] false) (mockEndpoint 200 "200 OK" false) initial).1).
  - intros data _. reflexivity.
  - reflexivity.
  - reflexivity.
Defined.

Lemma rejection_is_not_an_error_witness :
  (pushLogData utils.truncateString 10485760 16384 32768 512 32 json.Marshal (λ _, None)
     stored_stream path_of (testExporter false) (oneResource [emptyRecord; namedRecord])
     (mockEndpoint 500 "500 Internal Server Error" true) initial).1 = Ok ().
Proof.
  apply (rejection_is_not_an_error utils.truncateString 10485760 16384 32768 512 32
           json.Marshal (λ _, None) stored_stream path_of (testExporter false)
           (mockEndpoint 500 "500 Internal Server Error" true)).
  - apply mockEndpoint_completes.
  - intros doc Hc. discriminate Hc.
  - intros l. by eexists.
Defined.

Lemma final_document_is_always_sent_witness :
  requests (trace (pushLogData utils.truncateString 10485760 16384 32768 512 32 json.Marshal
                     (λ _, None) stored_stream path_of (testExporter false) []
                     (mockEndpoint 200 "200 OK" false) initial).2)
  = [requestFor stored_stream (testExporter false) (document [] false)]
  ∧ document [] false = "{" +:+ dq +:+ "lines" +:+ dq +:+ ": []}"
  ∧ (Compression (config (testExporter false)) = false →
     ReqBody (requestFor stored_stream (testExporter false) (document [] false))
     = document [] false).
Proof.
  apply (final_document_is_always_sent utils.truncateString 10485760 16384 32768 512 32
           json.Marshal (λ _, None) stored_stream path_of (testExporter false) []
           (mockEndpoint 200 "200 OK" false)).
  - reflexivity.
  - intros Hc. discriminate Hc.
Defined.

Lemma flushed_document_ends_with_a_comma_witness :
  ∃ req rest,
    requests (trace (pushLogData utils.truncateString 10485760 16384 32768 512 32 json.Marshal
                       (λ _, None) stored_stream path_of (testExporter false)
                       (oneResource [emptyRecord; keyedRecord (Z.to_nat 10485760)])
                       (mockEndpoint 200 "200 OK" false) initial).2) = req :: rest ∧
    ReqBody req = header +:+ emptyLineBytes +:+ ",]}" ∧
    ¬ ∃ (lines : list mezmoLogLine) (encs : list string),
        encodings json.Marshal lines encs ∧ ReqBody req = document encs false.
Proof.
  apply (flushed_document_ends_with_a_comma 10485760 16384 32768 512 32). lia.
Defined.

Lemma flushed_document_has_no_lines_array_witness :
  ∃ lines s0,
    normalized utils.truncateString 16384 32768 512 32
      (oneResource [emptyRecord; keyedRecord (Z.to_nat 10485760)])
      (mockEndpoint 200 "200 OK" false) initial = (Ok lines, s0) ∧
    lines = [emptyLine 1700000000000; keyedLine 1700000000001 (Z.to_nat 10485760)] ∧
    (pushLogData utils.truncateString 10485760 16384 32768 512 32 json.Marshal (λ _, None)
       stored_stream path_of (testExporter false)
       (oneResource [emptyRecord; keyedRecord (Z.to_nat 10485760)])
       (mockEndpoint 200 "200 OK" false) initial).1 = Ok () ∧
    ¬ ∃ groups,
        Forall2 (linesArray json.Marshal stored_stream (testExporter false))
          (requests (trace (pushLogData utils.truncateString 10485760 16384 32768 512 32
                              json.Marshal (λ _, None) stored_stream path_of
                              (testExporter false)
                              (oneResource [emptyRecord; keyedRecord (Z.to_nat 10485760)])
                              (mockEndpoint 200 "200 OK" false) initial).2))
          groups ∧
        concat groups = lines.
Proof.
  apply (flushed_document_has_no_lines_array 10485760 16384 32768 512 32). lia.
Defined.

Lemma bodies_within_maxBodySize_witness :
  ∃ docs,
    requests (trace (pushLogData utils.truncateString 10485760 16384 32768 512 32 json.Marshal
                       (λ _, None) stored_stream path_of (testExporter false)
                       (oneResource [emptyRecord])
                       (mockEndpoint 200 "200 OK" false) initial).2)
    = map (requestFor stored_stream (testExporter false)) docs ∧
    Forall (λ doc, len doc <= 10485760) docs.
Proof.
  apply (bodies_within_maxBodySize utils.truncateString 10485760 16384 32768 512 32
           json.Marshal (λ _, None) stored_stream path_of (testExporter false)
           (oneResource [emptyRecord]) (mockEndpoint 200 "200 OK" false)
           [emptyLine 1700000000000] [emptyLineBytes] (afterNow initial)).
  - lia.
  - apply mockEndpoint_completes.
  - intros doc Hc. discriminate Hc.
  - reflexivity.
  - constructor; [exact Marshal_emptyLine|constructor].
  - constructor; [rewrite len_emptyLineBytes; lia|constructor].
Defined.

Lemma trace_id_is_32_hex_digits_witness :
  ∃ line s' v,
    recordToLine utils.truncateString 16384 32768 512 32 false pcommon.ValueEmpty
      tracedRecord (mockEndpoint 200 "200 OK" false) initial = (Ok line, s') ∧
    Meta line !! "trace.id" = Some v ∧
    String.length v = 32%nat ∧ allChars lowerHex v = true.
Proof.
  apply (trace_id_is_32_hex_digits utils.truncateString 16384 32768 512 32 false
           pcommon.ValueEmpty tracedRecord); reflexivity.
Defined.

Lemma unreachable_endpoint_fails_the_push_witness :
  (∃ errs,
     (pushLogData utils.truncateString 10485760 16384 32768 512 32 json.Marshal (λ _, None)
        stored_stream path_of (testExporter false) (oneResource [emptyRecord; tracedRecord])
        deadEndpoint initial).1 = Fail errs) ∧
  (length (requests (trace (pushLogData utils.truncateString 10485760 16384 32768 512 32
                              json.Marshal (λ _, None) stored_stream path_of
                              (testExporter false) (oneResource [emptyRecord; tracedRecord])
                              deadEndpoint initial).2)) <= 1)%nat.
Proof.
  apply (unreachable_endpoint_fails_the_push utils.truncateString 10485760 16384 32768 512 32
           json.Marshal (λ _, None) stored_stream path_of (testExporter false)
           (oneResource [emptyRecord; tracedRecord]) deadEndpoint).
  - intros n req. by eexists.
  - intros doc Hc. discriminate Hc.
Defined.

Lemma every_request_is_an_authenticated_post_witness :
  Method (requestFor stored_stream (testExporter true) (document [] false)) = "POST" ∧
  URL (requestFor stored_stream (testExporter true) (document [] false))
  = "https://logs.mezmo.com/otel/ingest/rest" ∧
  http.headerOf (Header (requestFor stored_stream (testExporter true) (document [] false)))
  = {[ "Accept" := ["application/json"];
       "Content-Type" := ["application/json"];
       "User-Agent" := ["mezmo-otel-exporter/" +:+ "latest"];
       "Apikey" := ["00000000000000000000000000000000"] ]}
    ∪ {[ "Content-Encoding" := ["gzip"] ]}.
Proof.
  apply (every_request_is_an_authenticated_post utils.truncateString 10485760 16384 32768 512
           32 json.Marshal (λ _, None) stored_stream path_of (testConfig true) "latest" []
           (mockEndpoint 200 "200 OK" false)).
  apply list_elem_of_singleton. reflexivity.
Defined.

Lemma refusing_compressor_sends_nothing_witness :
  requests (trace (pushLogData utils.truncateString 10485760 16384 32768 512 32 json.Marshal
                     (λ _, Some "gzip: short write") stored_stream path_of
                     (testExporter true) (oneResource [emptyRecord; tracedRecord])
                     (mockEndpoint 200 "200 OK" false) initial).2) = [] ∧
  ∃ errs,
    (pushLogData utils.truncateString 10485760 16384 32768 512 32 json.Marshal
       (λ _, Some "gzip: short write") stored_stream path_of
       (testExporter true) (oneResource [emptyRecord; tracedRecord])
       (mockEndpoint 200 "200 OK" false) initial).1 = Fail errs.
Proof.
  apply (refusing_compressor_sends_nothing utils.truncateString 10485760 16384 32768 512 32
           json.Marshal (λ _, Some "gzip: short write") stored_stream path_of
           (testExporter true) (oneResource [emptyRecord; tracedRecord])
           (mockEndpoint 200 "200 OK" false)).
  - reflexivity.
  - intros doc. by eexists.
Defined.

Lemma encoding_error_ends_the_push_witness :
  (pushLogData utils.truncateString 10485760 16384 32768 512 32
     (refusingMarshal "not encodable") (λ _, None) stored_stream path_of
     (testExporter false) (oneResource [emptyRecord; refusedRecord; emptyRecord])
     (mockEndpoint 200 "200 OK" false) initial).1
  = Fail (Errorf_wrap "error Creating JSON payload" "json: unsupported value") ∧
  ∃ unsent,
    map (requestFor stored_stream (testExporter false))
      (plan 10485760 header 0 [emptyLineBytes])
    = requests (trace (pushLogData utils.truncateString 10485760 16384 32768 512 32
                         (refusingMarshal "not encodable") (λ _, None) stored_stream path_of
                         (testExporter false)
                         (oneResource [emptyRecord; refusedRecord; emptyRecord])
                         (mockEndpoint 200 "200 OK" false) initial).2) ++ [unsent].
Proof.
  apply (encoding_error_ends_the_push utils.truncateString 10485760 16384 32768 512 32
           (refusingMarshal "not encodable") (λ _, None) stored_stream path_of
           (testExporter false) (oneResource [emptyRecord; refusedRecord; emptyRecord])
           (mockEndpoint 200 "200 OK" false)
           [emptyLine 1700000000000] [emptyLine 1700000000002] refusedLine
           [emptyLineBytes] "json: unsupported value"
           (afterNow (afterNow (afterNow initial)))).
  - apply mockEndpoint_completes.
  - intros doc Hc. discriminate Hc.
  - reflexivity.
  - constructor; [exact Marshal_emptyLine|constructor].
  - reflexivity.
Defined.

Lemma small_batch_is_one_document_witness :
  requests (trace (pushLogData utils.truncateString 10485760 16384 32768 512 32 json.Marshal
                     (λ _, None) stored_stream path_of (testExporter false)
                     (oneResource [emptyRecord])
                     (mockEndpoint 200 "200 OK" false) initial).2)
  = [requestFor stored_stream (testExporter false) (document [emptyLineBytes] false)] ∧
  document [emptyLineBytes] false = header +:+ Join [emptyLineBytes] "," +:+ footer.
Proof.
  apply (small_batch_is_one_document utils.truncateString 10485760 16384 32768 512 32
           json.Marshal (λ _, None) stored_stream path_of (testExporter false)
           (oneResource [emptyRecord]) (mockEndpoint 200 "200 OK" false)
           [emptyLine 1700000000000] [emptyLineBytes] (afterNow initial)).
  - apply mockEndpoint_completes.
  - intros doc Hc. discriminate Hc.
  - reflexivity.
  - constructor; [exact Marshal_emptyLine|constructor].
  - unfold document. rewrite !len_app. cbn [Join]. rewrite len_emptyLineBytes. reflexivity.
Defined.
